(** * Fibrous provider adapter: a shallow embedding and its properties

    Source: [meta_aggregation_api/providers/fibrous_v1/fibrous_provider.py].

    Conventions of the embedding.
    - A Python [str] is a Rocq [string] whose characters are the code points
      below 256; [str.lower] is the Unicode lower-casing restricted to them.
    - A Python [int] is a [Z]; a Python [float] is an IEEE-754 binary64 value,
      a [spec_float] with precision 53 and maximal exponent 1024.
    - A Python [dict] is an association list in insertion order with unique
      keys ([dict_get] reads, [dict_set] writes).
    - Exceptions are values of [exn]; a computation that talks to the network
      or to the logger is a function of the [world]. *)

From Stdlib Require Import ZArith List String Ascii Bool Lia QArith.
From Stdlib Require Import Floats.SpecFloat.
Import ListNotations.
Local Open Scope string_scope.
Local Open Scope Z_scope.

(** ** Strings *)

Definition in_range (lo hi n : nat) : bool := (Nat.leb lo n && Nat.leb n hi)%bool.

(** [str.lower] on one code point below 256: [A-Z] and the Latin-1 capitals
    U+00C0..U+00DE (the multiplication sign U+00D7 apart) move up by 32. *)
Definition lower_char (c : ascii) : ascii :=
  let n := nat_of_ascii c in
  if (in_range 65 90 n || (in_range 192 222 n && negb (Nat.eqb n 215)))%bool
  then ascii_of_nat (n + 32) else c.

Fixpoint lower (s : string) : string :=
  match s with
  | EmptyString => EmptyString
  | String c s' => String (lower_char c) (lower s')
  end.

Fixpoint starts_with (p s : string) : bool :=
  match p, s with
  | EmptyString, _ => true
  | String a p', String b s' => (Ascii.eqb a b && starts_with p' s')%bool
  | String _ _, EmptyString => false
  end.

(** [p in s] on strings. *)
Fixpoint str_in (p s : string) : bool :=
  (starts_with p s ||
   match s with
   | EmptyString => false
   | String _ s' => str_in p s'
   end)%bool.

(** [str(n)] for an [int]. *)
Fixpoint digits_of_pos_fuel (fuel : nat) (n : Z) (acc : string) : string :=
  match fuel with
  | O => acc
  | S fuel' =>
      let acc' := String (ascii_of_nat (48 + Z.to_nat (n mod 10))) acc in
      if n <? 10 then acc' else digits_of_pos_fuel fuel' (n / 10) acc'
  end.

Definition str_of_nonneg (n : Z) : string :=
  digits_of_pos_fuel (S (Z.to_nat (Z.log2 n))) n EmptyString.

Definition str_of_int (z : Z) : string :=
  if z <? 0 then String "-" (str_of_nonneg (- z)) else str_of_nonneg z.

(** Decimal digits, for [float] applied to a string. *)
Definition digit_of_char (c : ascii) : option Z :=
  let n := nat_of_ascii c in
  if in_range 48 57 n then Some (Z.of_nat (n - 48)) else None.

Fixpoint digits_value (s : string) (acc : Z) : option Z :=
  match s with
  | EmptyString => Some acc
  | String c s' =>
      match digit_of_char c with
      | Some d => digits_value s' (10 * acc + d)
      | None => None
      end
  end.

(** A plain decimal integer literal: an optional sign and at least one digit.
    The result is the sign and the magnitude. *)
Definition int_literal (s : string) : option (bool * Z) :=
  let unsigned neg r :=
    match r with
    | EmptyString => None
    | _ => option_map (fun n => (neg, n)) (digits_value r 0)
    end in
  match s with
  | String "-" r => unsigned true r
  | String "+" r => unsigned false r
  | _ => unsigned false s
  end.

(** ** Binary64 floats *)

Definition prec : Z := 53.
Definition emax : Z := 1024.

Definition float := spec_float.

(** The float nearest to the integer [z] (ties to even), an infinity when
    [z] is out of range; [szero] is the sign given to a zero. *)
Definition float_of_Z (z : Z) (szero : bool) : float :=
  binary_normalize prec emax z 0 szero.

Definition fmul : float -> float -> float := SFmul prec emax.
Definition fdiv : float -> float -> float := SFdiv prec emax.
Definition fzero : float := S754_zero false.

(** [x > 0] for a float [x]. *)
Definition float_gt0 (x : float) : bool := SFltb fzero x.

(** Truth value of a float: false for the two zeros only. *)
Definition float_truthy (x : float) : bool :=
  match x with
  | S754_zero _ => false
  | _ => true
  end.

(** The rational a finite float stands for. *)
Definition SF2Q (x : float) : option Q :=
  match x with
  | S754_zero _ => Some 0%Q
  | S754_finite s m (Zneg p) => Some (cond_Zopp s (Zpos m) # Pos.pow 2 p)%Q
  | S754_finite s m e => Some (inject_Z (cond_Zopp s (Zpos m) * 2 ^ e))
  | S754_infinity _ | S754_nan => None
  end.

(** A finite float or an infinity of sign [sx]. *)
Definition signed_nonzero (sx : bool) (x : float) : Prop :=
  match x with
  | S754_finite s _ _ | S754_infinity s => s = sx
  | S754_zero _ | S754_nan => False
  end.

(** Truncation toward zero of a finite float. *)
Definition trunc_float (s : bool) (m : positive) (e : Z) : Z :=
  cond_Zopp s (if 0 <=? e then Zpos m * 2 ^ e else Zpos m / 2 ^ (- e)).

(** ** Python values *)

#[local] Unset Elimination Schemes.
Inductive pyval : Type :=
| PNone
| PBool (b : bool)
| PInt (z : Z)
| PFloat (x : float)
| PStr (s : string)
| PList (l : list pyval)
| PDict (d : list (string * pyval)).
#[local] Set Elimination Schemes.

Definition dict : Type := list (string * pyval).

Fixpoint dict_lookup (k : string) (d : dict) : option pyval :=
  match d with
  | [] => None
  | (k', v) :: d' => if String.eqb k k' then Some v else dict_lookup k d'
  end.

(** [d.get(k, dflt)] *)
Definition dict_get (k : string) (d : dict) (dflt : pyval) : pyval :=
  match dict_lookup k d with
  | Some v => v
  | None => dflt
  end.

(** [d[k] = v] *)
Fixpoint dict_set (k : string) (v : pyval) (d : dict) : dict :=
  match d with
  | [] => [(k, v)]
  | (k', v') :: d' =>
      if String.eqb k k' then (k, v) :: d' else (k', v') :: dict_set k v d'
  end.

Definition dict_has (k : string) (d : dict) : bool :=
  match dict_lookup k d with
  | Some _ => true
  | None => false
  end.

(** The truth value Python gives a value in [if v:], [not v], [a or b]. *)
Definition truthy (v : pyval) : bool :=
  match v with
  | PNone => false
  | PBool b => b
  | PInt z => negb (z =? 0)
  | PFloat x => float_truthy x
  | PStr s => negb (String.eqb s "")
  | PList l => match l with [] => false | _ => true end
  | PDict d => match d with [] => false | _ => true end
  end.

(** ** Errors *)

(** The classes of the error taxonomy. The three named ones are those this
    adapter imports; [SharedError] stands for any class the shared classifier
    of the base provider may return. *)
Inductive error_kind : Type :=
| InsufficientLiquidityError
| EstimationError
| AggregationProviderError
| SharedError (class_name : string).

(** An instance [error_class(provider, msg, url=..., **kwargs)]. *)
Record provider_error : Type := {
  err_kind : error_kind;
  err_provider : string;
  err_message : pyval;
  err_url : pyval;
  err_context : dict
}.

Inductive exn : Type :=
| ValueError (msg : string)
| JSONDecodeError                (* ujson; a subclass of ValueError *)
| ValidationError                (* pydantic *)
| KeyError
| IndexError
| TypeError
| AttributeError
| OverflowError
| ZeroDivisionError
| TimeoutError                   (* asyncio.TimeoutError *)
| ServerDisconnectedError
| TransportError (name : string) (* any other failure of the HTTP session *)
| ClientResponseError (status : Z) (message : pyval)
| ProviderError (e : provider_error).

(** [except (ClientResponseError, asyncio.TimeoutError, ServerDisconnectedError)] *)
Definition is_request_failure (e : exn) : bool :=
  match e with
  | ClientResponseError _ _ | TimeoutError | ServerDisconnectedError => true
  | _ => false
  end.

(** [except (KeyError, ValidationError, ValueError)] *)
Definition is_transform_failure (e : exn) : bool :=
  match e with
  | KeyError | ValidationError | ValueError _ | JSONDecodeError => true
  | _ => false
  end.

(** Builtin exception classes, as opposed to classes that name one failure. *)
Definition is_builtin_exception (e : exn) : bool :=
  match e with
  | ValueError _ | KeyError | IndexError | TypeError | AttributeError
  | OverflowError | ZeroDivisionError => true
  | _ => false
  end.

(** Two exceptions are instances of the same class. *)
Definition same_class (a b : exn) : bool :=
  match a, b with
  | ValueError _, ValueError _ => true
  | JSONDecodeError, JSONDecodeError => true
  | ValidationError, ValidationError => true
  | KeyError, KeyError => true
  | IndexError, IndexError => true
  | TypeError, TypeError => true
  | AttributeError, AttributeError => true
  | OverflowError, OverflowError => true
  | ZeroDivisionError, ZeroDivisionError => true
  | TimeoutError, TimeoutError => true
  | ServerDisconnectedError, ServerDisconnectedError => true
  | TransportError n, TransportError n' => String.eqb n n'
  | ClientResponseError _ _, ClientResponseError _ _ => true
  | ProviderError _, ProviderError _ => true
  | _, _ => false
  end.

(** The exceptions the pure steps of the adapter raise by themselves:
    conversions, attribute and item access, iteration, validation. *)
Definition is_local_error (e : exn) : bool :=
  match e with
  | AttributeError | TypeError | OverflowError | ZeroDivisionError
  | ValueError _ | ValidationError => true
  | _ => false
  end.


Definition result (A : Type) : Type := (exn + A)%type.

(** ** Conversions between Python values *)

(** [float(n)] for an [int]: the nearest float, or [OverflowError]. *)
Definition float_of_int (z : Z) : result float :=
  match float_of_Z z false with
  | S754_infinity _ => inl OverflowError
  | x => inr x
  end.

(** [int(x)] for a float. *)
Definition int_of_float (x : float) : result Z :=
  match x with
  | S754_nan => inl (ValueError "cannot convert float NaN to integer")
  | S754_infinity _ => inl OverflowError
  | S754_zero _ => inr 0
  | S754_finite s m e => inr (trunc_float s m e)
  end.

(** [a / b] on floats. *)
Definition float_truediv (a b : float) : result float :=
  match b with
  | S754_zero _ => inl ZeroDivisionError
  | _ => inr (fdiv a b)
  end.

(** The rows of [FIBROUS_ERRORS], a dict literal, in the order written. *)
Definition FIBROUS_ERRORS : list (string * error_kind) :=
  [ ("insufficient liquidity", InsufficientLiquidityError);
    ("insufficient balance", InsufficientLiquidityError);
    ("cannot estimate", EstimationError);
    ("no route found", InsufficientLiquidityError) ].

(** [CHAIN_ID_TO_API_BASE] *)
Definition CHAIN_ID_TO_API_BASE : list (Z * string) :=
  [ (8453, "base"); (534352, "scroll"); (999, "hyperevm") ].

Definition FIBROUS_API_BASE : string := "https://api.fibrous.finance/base".
Definition FIBROUS_API_SCROLL : string := "https://api.fibrous.finance/scroll".
Definition FIBROUS_API_HYPEREVM : string := "https://api.fibrous.finance/hyperevm".

Fixpoint chain_lookup (chain_id : Z) (t : list (Z * string)) : option string :=
  match t with
  | [] => None
  | (c, n) :: t' => if c =? chain_id then Some n else chain_lookup chain_id t'
  end.

Definition unsupported_chain (chain_id : Z) : exn :=
  ValueError ("Fibrous does not support chain_id " ++ str_of_int chain_id).

Definition _get_api_base_url (chain_id : Z) : result string :=
  match chain_lookup chain_id CHAIN_ID_TO_API_BASE with
  | None | Some EmptyString => inl (unsupported_chain chain_id)
  | Some _ =>
      if chain_id =? 8453 then inr FIBROUS_API_BASE
      else if chain_id =? 534352 then inr FIBROUS_API_SCROLL
      else if chain_id =? 999 then inr FIBROUS_API_HYPEREVM
      else inl (unsupported_chain chain_id)
  end.

(** ** The world: the upstream API and the logger *)

Record request : Type := {
  req_method : string;
  req_url : string;
  req_params : option dict;
  req_json : option dict
}.

(** How [response.read()] can fail: the transfer of the body times out or
    breaks off. A [ClientResponseError] comes from the call of the session
    or from [raise_for_status], never from reading the body. *)
Inductive read_failure : Type :=
| ReadTimeout
| ReadDisconnected
| ReadBroken (name : string).    (* ClientPayloadError and the like *)

Definition read_exn (f : read_failure) : exn :=
  match f with
  | ReadTimeout => TimeoutError
  | ReadDisconnected => ServerDisconnectedError
  | ReadBroken name => TransportError name
  end.

(** What [response.read()] followed by [ujson.loads] makes of a body. *)
Inductive body : Type :=
| BodyEmpty                       (* no bytes at all *)
| BodyInvalid                     (* bytes on which [ujson.loads] raises *)
| BodyJson (data : pyval)         (* bytes that decode to [data] *)
| BodyFails (f : read_failure).   (* [response.read()] itself raises *)

(** A response: its body, and the status of the [ClientResponseError] that
    [response.raise_for_status()] raises, if it raises. *)
Record response : Type := {
  resp_body : body;
  resp_raise_for_status : option Z
}.

(** The call of the session either raises or hands back a response. *)
Inductive outcome : Type :=
| Fails (e : exn)
| Responds (r : response).

(** The calls of the logger. [LogDebug] is the line of [_make_request],
    written from the method and the URL of the response received. *)
Inductive log_record : Type :=
| LogDebug (method : string) (r : response) (* [logger.debug] in [_make_request] *)
| LogError (e : provider_error)      (* [logger.error] in [handle_exception] *)
| LogWarning (e : provider_error)    (* [logger.warning] in [handle_exception] *)
| LogHealth (chain_id : Z) (e : exn) (* [logger.error] in [health_check] *).

(** Requests sent and records logged so far, oldest first. *)
Record world : Type := {
  calls : list request;
  logs : list log_record
}.

Definition Net (A : Type) : Type := world -> result A * world.

Definition ret {A} (a : A) : Net A := fun w => (inr a, w).
Definition raise {A} (e : exn) : Net A := fun w => (inl e, w).

Definition bind {A B} (c : Net A) (k : A -> Net B) : Net B :=
  fun w =>
    match c w with
    | (inr a, w') => k a w'
    | (inl e, w') => (inl e, w')
    end.

(** A pure step that may raise. *)
Definition lift {A} (r : result A) : Net A := fun w => (r, w).

(** [try: c  except <classes>: h] *)
Definition try_except {A} (c : Net A) (caught : exn -> bool) (h : exn -> Net A)
  : Net A :=
  fun w =>
    match c w with
    | (inl e, w') => if caught e then h e w' else (inl e, w')
    | r => r
    end.

Definition send (r : request) : Net unit :=
  fun w => (inr tt, {| calls := calls w ++ [r]; logs := logs w |}).

Definition log (l : log_record) : Net unit :=
  fun w => (inr tt, {| calls := calls w; logs := logs w ++ [l] |}).

Declare Scope net_scope.
Delimit Scope net_scope with net.
Notation "x <- c ;; k" := (bind c (fun x => k))
  (at level 61, c at next level, right associativity) : net_scope.
Notation "c ;;; k" := (bind c (fun _ => k))
  (at level 61, right associativity) : net_scope.
Local Open Scope net_scope.

(** ** Canonical response models *)

Record SwapSources : Type := {
  name : pyval;
  proportion : pyval
}.

Record ProviderPriceResponse : Type := {
  provider : string;
  sources : list SwapSources;
  buy_amount : string;
  gas : string;
  sell_amount : string;
  gas_price : string;
  value : string;
  price : string;
  allowance_target : option string
}.

Record ProviderQuoteResponse : Type := {
  q_sources : list SwapSources;
  q_buy_amount : string;
  q_gas : string;
  q_sell_amount : string;
  q_to : pyval;
  q_data : pyval;
  q_gas_price : string;
  q_value : string;
  q_price : string
}.

(** Sequencing of pure steps that may raise. *)
Definition rbind {A B} (r : result A) (k : A -> result B) : result B :=
  match r with
  | inr a => k a
  | inl e => inl e
  end.

Declare Scope res_scope.
Delimit Scope res_scope with res.
Notation "x <- c ;; k" := (rbind c (fun x => k))
  (at level 61, c at next level, right associativity) : res_scope.

(** [v.get(k, dflt)]: only a dict has the method. *)
Definition py_get (v : pyval) (k : string) (dflt : pyval) : result pyval :=
  match v with
  | PDict d => inr (dict_get k d dflt)
  | _ => inl AttributeError
  end.

(** [v.lower()]: only a string has the method. *)
Definition py_lower (v : pyval) : result string :=
  match v with
  | PStr s => inr (lower s)
  | _ => inl AttributeError
  end.

(** [for step in route]: the items the loop visits. *)
Definition iterate (v : pyval) : result (list pyval) :=
  match v with
  | PList l => inr l
  | PDict d => inr (map (fun kv => PStr (fst kv)) d)
  | PStr s => inr (map (fun c => PStr (String c "")) (list_ascii_of_string s))
  | PNone | PBool _ | PInt _ | PFloat _ => inl TypeError
  end.

(** [status = 500 if e.status not in range(100, 600) else e.status] *)
Definition normalize_status (status : Z) : Z :=
  if ((100 <=? status) && (status <? 600))%bool then status else 500.

(** The loop of [handle_exception] over the rows of the table:
    [if error_pattern.lower() in msg.lower(): error_class = error_cls; break] *)
Fixpoint scan_patterns (table : list (string * error_kind)) (msg : pyval)
  : result error_kind :=
  match table with
  | [] => inr AggregationProviderError
  | (error_pattern, error_cls) :: rest =>
      (msg_lower <- py_lower msg ;;
       if str_in (lower error_pattern) msg_lower then inr error_cls
       else scan_patterns rest msg)%res
  end.

(** The class chosen for a message that is a string. *)
Definition classify_message (msg : string) : result error_kind :=
  scan_patterns FIBROUS_ERRORS (PStr msg).

(** ** The adapter *)

Section Adapter.

(** The provider name read from [config.json], and the native-token
    sentinel of the injected configuration. *)
Variable PROVIDER_NAME : string.
Variable NATIVE_TOKEN_ADDRESS : string.

(** [BaseProvider.handle_exception], the shared classifier. *)
Variable base_handle_exception : exn -> dict -> option provider_error.

(** [str(e)] for an exception; [str(v)] for a float, a list or a dict;
    [float(s)] for a string that is not a plain integer literal (a decimal
    point, an exponent, blanks, [inf], [nan]: [None] is a [ValueError]). *)
Variable str_exn : exn -> string.
Variable py_repr : pyval -> string.
Variable float_of_literal : string -> option float.

(** [SwapSources(name=..., proportion=...)]: the validated model, or
    [None] when pydantic raises [ValidationError]. *)
Variable new_SwapSources : pyval -> pyval -> option SwapSources.

(** The upstream API behind the HTTP session. *)
Variable upstream : request -> outcome.

(** A call that gives a keyword twice raises [TypeError] by the language
    reference; CPython 3.11 raises [KeyError] on the keyword instead when the
    call is made while an exception is being handled, as every call of
    [handle_exception] is. The flag says that the interpreter is of the
    second kind. *)
Variable duplicate_keyword_is_KeyError : bool.

(** [str(v)] *)
Definition py_str (v : pyval) : string :=
  match v with
  | PStr s => s
  | PInt z => str_of_int z
  | PNone => "None"
  | PBool true => "True"
  | PBool false => "False"
  | PFloat _ | PList _ | PDict _ => py_repr v
  end.

(** [float(v)] *)
Definition py_float (v : pyval) : result float :=
  match v with
  | PFloat x => inr x
  | PInt z => float_of_int z
  | PBool b => inr (float_of_Z (if b then 1 else 0) false)
  | PStr s =>
      match int_literal s with
      | Some (neg, n) => inr (float_of_Z (cond_Zopp neg n) neg)
      | None =>
          match float_of_literal s with
          | Some x => inr x
          | None => inl (ValueError "could not convert string to float")
          end
      end
  | PNone | PList _ | PDict _ => inl TypeError
  end.

Definition _make_request (url : string) (params : option dict)
    (method : string) (json : option dict) : Net pyval :=
  let req := {| req_method := lower method; req_url := url;
                req_params := params; req_json := json |} in
  send req ;;;
  match upstream req with
  | Fails e => raise e
  | Responds r =>
      log (LogDebug method r) ;;;
      match resp_body r with
      | BodyFails f => raise (read_exn f)
      | BodyEmpty => ret (PDict [])
      | BodyInvalid => raise JSONDecodeError
      | BodyJson data =>
          match resp_raise_for_status r with
          | None => ret data
          | Some e_status =>
              let status := normalize_status e_status in
              match data with
              | PDict d =>
                  let data := dict_set "source" (PStr "proxied Fibrous API") d in
                  raise (ClientResponseError status (PList [PDict data]))
              | _ => raise TypeError   (* [data['source'] = ...] *)
              end
          end
      end
  end.

(** The message [handle_exception] classifies. *)
Definition error_message (exception : exn) : result pyval :=
  let msg := PStr (str_exn exception) in
  match exception with
  | ClientResponseError _ (PList []) => inl IndexError
  | ClientResponseError _ (PList (PDict d :: _)) =>
      inr (dict_get "error" d (dict_get "message" d msg))
  | _ => inr msg
  end.

Definition handle_exception (exception : exn) (kwargs : dict) : Net exn :=
  match base_handle_exception exception kwargs with
  | Some exc => log (LogError exc) ;;; ret (ProviderError exc)
  | None =>
      msg <- lift (error_message exception) ;;
      error_class <- lift (scan_patterns FIBROUS_ERRORS msg) ;;
      (* [url=kwargs.get('url', ''), **kwargs]: a keyword given twice *)
      if dict_has "url" kwargs then
        raise (if duplicate_keyword_is_KeyError then KeyError else TypeError)
      else
        let exc := {| err_kind := error_class;
                      err_provider := PROVIDER_NAME;
                      err_message := msg;
                      err_url := dict_get "url" kwargs (PStr "");
                      err_context := kwargs |} in
        log (LogWarning exc) ;;; ret (ProviderError exc)
  end.

(** [if slippage_percentage: query['slippage'] = int(slippage_percentage * 10000)] *)
Definition with_slippage (slippage_percentage : option float) (query : dict)
  : result dict :=
  match slippage_percentage with
  | Some x =>
      if float_truthy x then
        (bps <- int_of_float (fmul x (float_of_Z 10000 false)) ;;
         inr (dict_set "slippage" (PInt bps) query))%res
      else inr query
  | None => inr query
  end.

(** [price = buy_amount_float / sell_amount_float if sell_amount_float > 0 else 0] *)
Definition compute_price (sell_amount : Z) (output_amount : pyval)
  : result pyval :=
  (sell_amount_float <- float_of_int sell_amount ;;
   buy_amount_float <- py_float output_amount ;;
   if float_gt0 sell_amount_float
   then (q <- float_truediv buy_amount_float sell_amount_float ;; inr (PFloat q))
   else inr (PInt 0))%res.

Fixpoint build_sources (steps : list pyval) : result (list SwapSources) :=
  match steps with
  | [] => inr []
  | step :: rest =>
      (protocol <- py_get step "protocol" (PStr "Unknown") ;;
       percent <- py_get step "percent" (PInt 100) ;;
       match new_SwapSources protocol percent with
       | None => inl ValidationError
       | Some src => (l <- build_sources rest ;; inr (src :: l))
       end)%res
  end.

(** [sources] as both lookups build it from the response. *)
Definition extract_sources (response : pyval) : result (list SwapSources) :=
  (route <- py_get response "route" (PList []) ;;
   if truthy route then (steps <- iterate route ;; build_sources steps)
   else inr [])%res.

(** [str(gas_price) if gas_price else '0'] *)
Definition gas_price_str (gas_price : option Z) : string :=
  match gas_price with
  | Some g => if g =? 0 then "0" else str_of_int g
  | None => "0"
  end.

(** The second [try] block of [get_swap_price]. *)
Definition price_response (sell_token : string) (sell_amount : Z)
    (gas_price : option Z) (response : pyval) : result ProviderPriceResponse :=
  (output_amount <- py_get response "outputAmount" (PStr "0") ;;
   estimated_gas <- py_get response "estimatedGas" (PStr "0") ;;
   price <- compute_price sell_amount output_amount ;;
   let value :=
     if String.eqb (lower sell_token) NATIVE_TOKEN_ADDRESS
     then str_of_int sell_amount else "0" in
   sources <- extract_sources response ;;
   inr {| provider := PROVIDER_NAME;
          sources := sources;
          buy_amount := py_str output_amount;
          gas := py_str estimated_gas;
          sell_amount := str_of_int sell_amount;
          gas_price := gas_price_str gas_price;
          value := value;
          price := py_str price;
          allowance_target := None |})%res.

(** The query of the [/route] request. *)
Definition route_params (buy_token sell_token : string) (sell_amount : Z)
  : dict :=
  [ ("tokenInAddress", PStr sell_token);
    ("tokenOutAddress", PStr buy_token);
    ("amount", PStr (str_of_int sell_amount)) ].

Definition price_query (buy_token sell_token : string) (sell_amount : Z)
    (slippage_percentage : option float) : result dict :=
  with_slippage slippage_percentage
    (route_params buy_token sell_token sell_amount).

(** The keyword arguments of the two calls of [handle_exception]. *)
Definition request_context (query : dict) (sell_token : string) (chain_id : Z)
  : dict :=
  [ ("params", PDict query);
    ("token_address", PStr sell_token);
    ("chain_id", PInt chain_id) ].

Definition transform_context (response : pyval) (method url : string)
    (query : dict) (chain_id : Z) : dict :=
  [ ("response", response);
    ("method", PStr method);
    ("url", PStr url);
    ("params", PDict query);
    ("chain_id", PInt chain_id) ].

(** The first [try] block raises the three classes of its [except] clause
    from [_make_request] only, so the handler sees [query] bound; the
    earlier steps raise past it. *)
Definition get_swap_price (buy_token sell_token : string)
    (sell_amount chain_id : Z) (gas_price : option Z)
    (slippage_percentage : option float) : Net ProviderPriceResponse :=
  api_base <- lift (_get_api_base_url chain_id) ;;
  let url := api_base ++ "/route" in
  query <- lift (price_query buy_token sell_token sell_amount
                   slippage_percentage) ;;
  response <-
    try_except (_make_request url (Some query) "GET" None)
      is_request_failure
      (fun e =>
         exc <- handle_exception e
                  (request_context query sell_token chain_id) ;;
         raise exc) ;;
  try_except (lift (price_response sell_token sell_amount gas_price response))
    is_transform_failure
    (fun e =>
       exc <- handle_exception e
                (transform_context response "get_swap_price" url query
                   chain_id) ;;
       raise exc).

(** The second [try] block of [get_swap_quote]. *)
Definition quote_response (sell_amount : Z) (gas_price : option Z)
    (response : pyval) : result ProviderQuoteResponse :=
  (calldata <- py_get response "calldata" (PStr "0x") ;;
   to_address <- py_get response "to" (PStr "") ;;
   value <- py_get response "value" (PStr "0") ;;
   output_amount <- py_get response "outputAmount" (PStr "0") ;;
   estimated_gas <- py_get response "estimatedGas" (PStr "0") ;;
   price <- compute_price sell_amount output_amount ;;
   sources <- extract_sources response ;;
   inr {| q_sources := sources;
          q_buy_amount := py_str output_amount;
          q_gas := py_str estimated_gas;
          q_sell_amount := str_of_int sell_amount;
          q_to := to_address;
          q_data := calldata;
          q_gas_price := gas_price_str gas_price;
          q_value := py_str value;
          q_price := py_str price |})%res.

(** The query of the [/calldata] request. *)
Definition calldata_params (buy_token sell_token : string) (sell_amount : Z)
    (taker_address : string) : dict :=
  [ ("tokenInAddress", PStr sell_token);
    ("tokenOutAddress", PStr buy_token);
    ("amount", PStr (str_of_int sell_amount));
    ("userAddress", PStr taker_address) ].

Definition quote_query (buy_token sell_token : string) (sell_amount : Z)
    (taker_address : string) (slippage_percentage : option float)
  : result dict :=
  with_slippage slippage_percentage
    (calldata_params buy_token sell_token sell_amount taker_address).

(** [not taker_address] for an address that is a string or [None]. *)
Definition missing (taker_address : option string) : bool :=
  match taker_address with
  | None | Some EmptyString => true
  | Some _ => false
  end.

Definition get_swap_quote (buy_token sell_token : string)
    (sell_amount chain_id : Z) (taker_address : option string)
    (gas_price : option Z) (slippage_percentage : option float)
  : Net ProviderQuoteResponse :=
  match taker_address with
  | None | Some EmptyString =>
      raise (ValueError "taker_address is required for Fibrous quote")
  | Some taker =>
      api_base <- lift (_get_api_base_url chain_id) ;;
      let url := api_base ++ "/calldata" in
      query <- lift (quote_query buy_token sell_token sell_amount taker
                       slippage_percentage) ;;
      response <-
        try_except (_make_request url (Some query) "GET" None)
          is_request_failure
          (fun e =>
             exc <- handle_exception e
                      (request_context query sell_token chain_id
                         ++ [("wallet", PStr taker)])%list ;;
             raise exc) ;;
      try_except (lift (quote_response sell_amount gas_price response))
        is_transform_failure
        (fun e =>
           exc <- handle_exception e
                    (transform_context response "get_swap_quote" url query
                       chain_id) ;;
           raise exc)
  end.

(** [except Exception] *)
Definition any_exception (e : exn) : bool := true.

(** The last two statements of the [try] block of [health_check]:
    [status = response.get('status', '')] and
    [return status.lower() == 'ok' or response.get('healthy', False)]. *)
Definition health_verdict (response : pyval) : result pyval :=
  (status <- py_get response "status" (PStr "") ;;
   status_lower <- py_lower status ;;
   if String.eqb status_lower "ok" then inr (PBool true)
   else py_get response "healthy" (PBool false))%res.

Definition health_check (chain_id : Z) : Net pyval :=
  try_except
    (api_base <- lift (_get_api_base_url chain_id) ;;
     let url := api_base ++ "/healthCheck" in
     response <- _make_request url None "GET" None ;;
     lift (health_verdict response))
    any_exception
    (fun e => log (LogHealth chain_id e) ;;; ret (PBool false)).



(** The source built for one route step: the step is an object, and the
    model validates its protocol (default "Unknown") and percent
    (default 100). *)
Definition step_source (step : pyval) (src : SwapSources) : Prop :=
  exists d,
    step = PDict d /\
    new_SwapSources (dict_get "protocol" d (PStr "Unknown"))
      (dict_get "percent" d (PInt 100)) = Some src.


End Adapter.

(** The request [_make_request(url, params)] sends, and the world after it. *)
Definition the_request (url : string) (params : option dict) : request :=
  {| req_method := "get"; req_url := url; req_params := params;
     req_json := None |}.

Definition sent (w : world) (r : request) : world :=
  {| calls := calls w ++ [r]; logs := logs w |}.

Definition logged (w : world) (l : log_record) : world :=
  {| calls := calls w; logs := logs w ++ [l] |}.

(** The world after the request [req] was sent and answered by [r]: the
    request is recorded and the debug line written. *)
Definition answered (w : world) (req : request) (r : response) : world :=
  logged (sent w req) (LogDebug "GET" r).

(** The classes this adapter picks by itself. *)
Definition own_kind (k : error_kind) : bool :=
  match k with
  | InsufficientLiquidityError | EstimationError | AggregationProviderError => true
  | SharedError _ => false
  end.

(** ** Sample configuration and upstream replies *)

Definition sample_provider : string := "Fibrous".
Definition sample_native : string := "0xeeeeeeeeeeeeeeeeeeeeeeeeeeeeeeeeeeeeeeee".
Definition usdc : string := "0x833589fCD6eDb6E08f4c7C32D4f71b54bdA02913".
Definition weth : string := "0x4200000000000000000000000000000000000006".

(** A shared classifier that recognises nothing. *)
Definition no_shared_match (e : exn) (kwargs : dict) : option provider_error :=
  None.

Definition sample_str_exn (e : exn) : string :=
  match e with
  | ValueError msg => msg
  | _ => ""
  end.

(** A stand-in for Python's text of a float: the exact value, as mantissa
    and binary exponent, where Python prints the shortest decimal. *)
Definition sample_repr (v : pyval) : string :=
  match v with
  | PFloat (S754_finite s m e) =>
      (if s then "-" else "") ++ str_of_int (Zpos m) ++ "*2**" ++ str_of_int e
  | _ => "<repr>"
  end.
Definition no_other_literal (s : string) : option float := None.

Definition accept_source (n p : pyval) : option SwapSources :=
  Some {| name := n; proportion := p |}.

(** An upstream that answers every request with the same body and status. *)
Definition reply (b : body) (raised : option Z) (r : request) : outcome :=
  Responds {| resp_body := b; resp_raise_for_status := raised |}.

Definition fresh : world := {| calls := []; logs := [] |}.

(** The world after the upstream answered the first request with body [b]. *)
Definition replied (b : body) (raised : option Z) (req : request) : world :=
  answered fresh req {| resp_body := b; resp_raise_for_status := raised |}.

(** The samples run on an interpreter that reports a keyword given twice
    as [KeyError]. *)
Definition sample_clash : bool := true.

(** The adapter on the sample configuration, against a given upstream. *)
Definition sample_price (upstream : request -> outcome) :=
  get_swap_price sample_provider sample_native no_shared_match sample_str_exn
    sample_repr no_other_literal accept_source upstream sample_clash.

Definition sample_price_with
    (shared : exn -> dict -> option provider_error)
    (upstream : request -> outcome) :=
  get_swap_price sample_provider sample_native shared sample_str_exn
    sample_repr no_other_literal accept_source upstream sample_clash.

Definition sample_quote (upstream : request -> outcome) :=
  get_swap_quote sample_provider no_shared_match sample_str_exn
    sample_repr no_other_literal accept_source upstream sample_clash.

Definition error_body : body :=
  BodyJson (PDict [("error", PStr "Insufficient Liquidity for pair")]).

(** What [_make_request] raises for [error_body] under status 503. *)
Definition tagged_error : exn :=
  ClientResponseError 503
    (PList [PDict [("error", PStr "Insufficient Liquidity for pair");
                   ("source", PStr "proxied Fibrous API")]]).

(** A health body whose status is a number. *)
Definition unhealthy_status_body : body :=
  BodyJson (PDict [("status", PInt 1); ("healthy", PBool true)]).

(** A shared classifier that recognises timeouts only. *)
Definition timeout_error : provider_error :=
  {| err_kind := SharedError "ProviderTimeoutError";
     err_provider := sample_provider;
     err_message := PStr "timeout";
     err_url := PStr "";
     err_context := [] |}.

Definition timeout_shared (e : exn) (kwargs : dict) : option provider_error :=
  match e with
  | TimeoutError => Some timeout_error
  | _ => None
  end.

(** An upstream that never answers in time. *)
Definition times_out (r : request) : outcome := Fails TimeoutError.

(** A body whose output amount is no number. *)
Definition garbled_body : body :=
  BodyJson (PDict [("outputAmount", PStr "abc")]).

(** The body of the end-to-end example. *)
Definition route_body : body :=
  BodyJson (PDict
    [ ("outputAmount", PStr "2000000");
      ("estimatedGas", PStr "150000");
      ("route", PList [PDict [("protocol", PStr "UniV3"); ("percent", PInt 100)]]) ]).

(** An output one unit above a sell amount of 10^24. *)
Definition large_amount : Z := 10 ^ 24.
Definition large_body : body :=
  BodyJson (PDict [("outputAmount", PStr (str_of_int (large_amount + 1)))]).

(** The native sentinel as a caller may spell it. *)
Definition native_upper : string := "0xEEEEEEEEEEEEEEEEEEEEEEEEEEEEEEEEEEEEEEEE".

(** The float written [0.015]: the binary64 value nearest to 15/1000. *)
Definition slippage_0_015 : float := S754_finite false 8646911284551352 (-59).

(** The float written [0.0003]: the binary64 value nearest to 3/10000. *)
Definition slippage_0_0003 : float := S754_finite false 5534023222112865 (-64).

(** A session that gives up on a redirect loop: aiohttp's [TooManyRedirects]
    is a [ClientResponseError] with status 0 and an empty message. *)
Definition too_many_redirects : exn := ClientResponseError 0 (PStr "").
Definition redirect_loop (r : request) : outcome := Fails too_many_redirects.

(** A shared classifier that reports the status it is handed. *)
Definition status_seen (s : Z) : provider_error :=
  {| err_kind := SharedError "ProviderError";
     err_provider := sample_provider;
     err_message := PInt s;
     err_url := PStr "";
     err_context := [] |}.

Definition status_probe (e : exn) (kwargs : dict) : option provider_error :=
  match e with
  | ClientResponseError s _ => Some (status_seen s)
  | _ => None
  end.

(** Health bodies: a text status that is not "ok", a numeric status and a
    null status, each with a truthy [healthy] entry. *)
Definition degraded_body : dict := [("status", PStr "degraded"); ("healthy", PInt 1)].
Definition numeric_status_body : dict := [("status", PInt 1); ("healthy", PStr "yes")].
Definition null_status_body : dict := [("status", PNone); ("healthy", PInt 1)].


Definition supported_chains : list Z := [8453; 534352; 999].

(** ** Strings: lower-casing and search *)


Lemma lower_char_idem (c : ascii) : lower_char (lower_char c) = lower_char c.
Proof.
  destruct c as [[] [] [] [] [] [] [] []]; reflexivity.
Qed.

Lemma lower_idem (s : string) : lower (lower s) = lower s.
Proof.
  induction s as [| c s IH]; simpl; [reflexivity |].
  now rewrite lower_char_idem, IH.
Qed.





(** ** The pattern scan *)






(** The scan, written out row by row. *)
Lemma classify_message_unfold (msg : string) :
  classify_message msg =
  if str_in "insufficient liquidity" (lower msg)
  then inr InsufficientLiquidityError
  else if str_in "insufficient balance" (lower msg)
  then inr InsufficientLiquidityError
  else if str_in "cannot estimate" (lower msg)
  then inr EstimationError
  else if str_in "no route found" (lower msg)
  then inr InsufficientLiquidityError
  else inr AggregationProviderError.
Proof. reflexivity. Qed.


(** ** Decimal text of integers *)

Lemma digit_of_char_digit (d : Z) :
  0 <= d < 10 -> digit_of_char (ascii_of_nat (48 + Z.to_nat d)) = Some d.
Proof.
  intros H.
  assert (E : d = 0 \/ d = 1 \/ d = 2 \/ d = 3 \/ d = 4 \/
              d = 5 \/ d = 6 \/ d = 7 \/ d = 8 \/ d = 9) by lia.
  repeat (destruct E as [-> | E]; [reflexivity |]). now subst.
Qed.

Lemma digits_of_pos_fuel_value (fuel : nat) :
  forall n acc,
    0 <= n < 2 ^ Z.of_nat fuel ->
    exists k, 0 <= k /\
      forall a, digits_value (digits_of_pos_fuel fuel n acc) a =
                digits_value acc (a * 10 ^ k + n).
Proof.
  induction fuel as [| fuel IH]; intros n acc Hn.
  - simpl in Hn. exists 0. split; [lia |]. intros a. simpl.
    replace (a * 1 + n) with a by lia. reflexivity.
  - cbn [digits_of_pos_fuel].
    assert (Hd : 0 <= n mod 10 < 10) by (apply Z.mod_pos_bound; lia).
    destruct (Z.ltb_spec n 10) as [Hlt | Hge].
    + exists 1. split; [lia |]. intros a. cbn [digits_value].
      rewrite (digit_of_char_digit _ Hd), Z.mod_small by lia.
      f_equal. lia.
    + assert (Hq : 0 <= n / 10 < 2 ^ Z.of_nat fuel).
      { split; [apply Z.div_pos; lia |].
        apply Z.div_lt_upper_bound; [lia |].
        rewrite Nat2Z.inj_succ, Z.pow_succ_r in Hn by lia. lia. }
      destruct (IH (n / 10) (String (ascii_of_nat (48 + Z.to_nat (n mod 10))) acc) Hq)
        as (k & Hk & Hval).
      exists (k + 1). split; [lia |]. intros a.
      rewrite Hval. cbn [digits_value].
      rewrite (digit_of_char_digit _ Hd). f_equal.
      rewrite Z.pow_add_r, Z.pow_1_r by lia.
      pose proof (Z.div_mod n 10). lia.
Qed.

Lemma str_of_nonneg_value (n : Z) :
  0 <= n -> digits_value (str_of_nonneg n) 0 = Some n.
Proof.
  intros Hn. unfold str_of_nonneg.
  destruct (digits_of_pos_fuel_value (S (Z.to_nat (Z.log2 n))) n "") as (k & _ & H).
  - split; [exact Hn |].
    rewrite Nat2Z.inj_succ, Z2Nat.id by apply Z.log2_nonneg.
    destruct (Z.eq_dec n 0) as [-> | Hnz]; [reflexivity |].
    apply Z.log2_spec. lia.
  - rewrite H. reflexivity.
Qed.

Lemma digits_of_pos_fuel_nonempty (fuel : nat) :
  forall n acc, acc <> "" -> digits_of_pos_fuel fuel n acc <> "".
Proof.
  induction fuel as [| fuel IH]; intros n acc Hacc; cbn [digits_of_pos_fuel].
  - exact Hacc.
  - destruct (n <? 10); [discriminate |]. apply IH. discriminate.
Qed.

Lemma str_of_nonneg_head (n : Z) :
  0 <= n ->
  exists c r, str_of_nonneg n = String c r /\ c <> "-"%char /\ c <> "+"%char.
Proof.
  intros Hn. pose proof (str_of_nonneg_value n Hn) as H.
  destruct (str_of_nonneg n) as [| c r] eqn:E.
  - exfalso. revert E. unfold str_of_nonneg. cbn [digits_of_pos_fuel].
    destruct (n <? 10); [discriminate |].
    apply digits_of_pos_fuel_nonempty. discriminate.
  - exists c, r. split; [reflexivity |].
    cbn [digits_value] in H.
    split; intros ->; discriminate.
Qed.

(** Reading back the text of an integer gives its sign and magnitude. *)
Lemma int_literal_str_of_int (z : Z) :
  int_literal (str_of_int z) = Some (z <? 0, Z.abs z).
Proof.
  unfold str_of_int. destruct (Z.ltb_spec z 0) as [Hneg | Hpos].
  - destruct (str_of_nonneg_head (- z)) as (c & r & E & _); [lia |].
    cbn [int_literal]. rewrite E, <- E, str_of_nonneg_value by lia.
    simpl. f_equal. f_equal. lia.
  - destruct (str_of_nonneg_head z Hpos) as (c & r & E & Hm & Hp).
    pose proof (str_of_nonneg_value z Hpos) as Hv. rewrite E in *.
    assert (Hlit : int_literal (String c r) =
                   option_map (fun n => (false, n)) (digits_value (String c r) 0)).
    { destruct c as [[] [] [] [] [] [] [] []]; try reflexivity;
        [exfalso; now apply Hp | exfalso; now apply Hm]. }
    rewrite Hlit, Hv. simpl. f_equal. f_equal. lia.
Qed.

Lemma str_of_int_inj (a b : Z) : str_of_int a = str_of_int b -> a = b.
Proof.
  intros H. pose proof (int_literal_str_of_int a) as Ha.
  rewrite H, int_literal_str_of_int in Ha. injection Ha as Hs Hm.
  destruct (Z.ltb_spec a 0), (Z.ltb_spec b 0); try discriminate; lia.
Qed.

(** ** Rounding to binary64 keeps the sign *)

Lemma Zdigits2_log2 (m : Z) : 0 < m -> Zdigits2 m = Z.log2 m + 1.
Proof.
  destruct m as [| p | p]; try lia. intros _. simpl.
  assert (H : forall q, digits2_pos q = Pos.size q).
  { induction q as [q IH | q IH |]; simpl; now rewrite ?IH. }
  rewrite H. destruct p; simpl; lia.
Qed.

Lemma shr_1_m (r : shr_record) :
  0 <= shr_m r -> shr_m (shr_1 r) = shr_m r / 2.
Proof.
  destruct r as [m b s]. cbn [shr_m]. intros Hm.
  destruct m as [| [p | p |] | p]; try lia; cbn [shr_1 shr_m].
  - reflexivity.
  - rewrite Pos2Z.inj_xI. apply Z.div_unique with 1; lia.
  - rewrite Pos2Z.inj_xO. apply Z.div_unique with 0; lia.
  - reflexivity.
Qed.

Lemma iter_pos_shr_m (k : positive) :
  forall r, 0 <= shr_m r ->
            shr_m (iter_pos shr_1 k r) = shr_m r / 2 ^ Zpos k.
Proof.
  assert (Hnn : forall r, 0 <= shr_m r -> 0 <= shr_m (shr_1 r)).
  { intros r Hr. rewrite shr_1_m by exact Hr. apply Z.div_pos; lia. }
  induction k as [k IH | k IH |]; intros r Hr; cbn [iter_pos].
  - assert (H1 : 0 <= shr_m (iter_pos shr_1 k (shr_1 r))).
    { rewrite IH by auto. apply Z.div_pos; [auto | lia]. }
    rewrite IH, IH, shr_1_m by auto.
    rewrite !Z.div_div by lia. f_equal.
    replace (Z.pos k~1) with (Z.pos k + Z.pos k + 1) by lia.
    rewrite !Z.pow_add_r, Z.pow_1_r by lia. lia.
  - assert (H1 : 0 <= shr_m (iter_pos shr_1 k r)).
    { rewrite IH by auto. apply Z.div_pos; [auto | lia]. }
    rewrite IH, IH by auto.
    rewrite Z.div_div by lia. f_equal.
    replace (Z.pos k~0) with (Z.pos k + Z.pos k) by lia.
    rewrite Z.pow_add_r by lia. lia.
  - rewrite shr_1_m by exact Hr. reflexivity.
Qed.

Lemma shr_record_of_loc_m (m : Z) (l : location) :
  shr_m (shr_record_of_loc m l) = m.
Proof. destruct l as [| []]; reflexivity. Qed.

(** A mantissa above the smallest subnormal survives the shift. *)
Lemma shr_fexp_positive (m e : Z) (l : location) :
  0 < m -> -1074 < Zdigits2 m + e ->
  0 < shr_m (fst (shr_fexp prec emax m e l)) /\
  Zdigits2 m + e <=
    Zdigits2 (shr_m (fst (shr_fexp prec emax m e l))) + snd (shr_fexp prec emax m e l).
Proof.
  intros Hm He. unfold shr_fexp, shr.
  destruct (fexp prec emax (Zdigits2 m + e) - e) as [| k | k] eqn:En;
    cbn [fst snd]; rewrite ?shr_record_of_loc_m; try (split; lia).
  rewrite iter_pos_shr_m, shr_record_of_loc_m
    by (rewrite shr_record_of_loc_m; lia).
  rewrite (Zdigits2_log2 m Hm) in *.
  assert (Hk : Z.pos k <= Z.log2 m).
  { unfold fexp, SpecFloat.emin, prec, emax in En. lia. }
  assert (Hpow : 2 ^ Z.pos k <= m).
  { apply Z.le_trans with (2 ^ Z.log2 m).
    - apply Z.pow_le_mono_r; lia.
    - apply Z.log2_spec. exact Hm. }
  assert (Hq : 0 < m / 2 ^ Z.pos k).
  { apply Z.div_str_pos. split; [apply Z.pow_pos_nonneg; lia | exact Hpow]. }
  split; [exact Hq |].
  rewrite (Zdigits2_log2 _ Hq), <- Z.shiftr_div_pow2, Z.log2_shiftr by lia.
  lia.
Qed.

Lemma round_nearest_even_ge (m : Z) (l : location) :
  m <= round_nearest_even m l.
Proof.
  destruct l as [| []]; cbn [round_nearest_even]; try lia.
  destruct (Z.even m); lia.
Qed.

Lemma Zdigits2_mono (a b : Z) : 0 < a -> a <= b -> Zdigits2 a <= Zdigits2 b.
Proof.
  intros Ha Hab. rewrite !Zdigits2_log2 by lia.
  pose proof (Z.log2_le_mono a b Hab). lia.
Qed.

(** The result of rounding a positive mantissa that does not underflow is a
    finite float or an infinity, of the sign asked for. *)
Lemma binary_round_aux_sign (sx : bool) (m : positive) (e : Z) (l : location) :
  -1074 < Zdigits2 (Zpos m) + e ->
  signed_nonzero sx (binary_round_aux prec emax sx (Zpos m) e l).
Proof.
  intros He. unfold binary_round_aux.
  destruct (shr_fexp_positive (Zpos m) e l) as [H1 H2]; [lia | exact He |].
  destruct (shr_fexp prec emax (Z.pos m) e l) as [mrs' e'].
  cbn [fst snd] in H1, H2.
  set (m1 := round_nearest_even (shr_m mrs') (loc_of_shr_record mrs')).
  assert (Hm1 : shr_m mrs' <= m1) by apply round_nearest_even_ge.
  destruct (shr_fexp_positive m1 e' loc_Exact) as [H3 _]; [lia | |].
  { pose proof (Zdigits2_mono _ _ H1 Hm1). lia. }
  destruct (shr_fexp prec emax m1 e' loc_Exact) as [mrs'' e''].
  cbn [fst] in H3.
  destruct (shr_m mrs'') as [| p | p]; try lia.
  destruct (e'' <=? emax - prec); reflexivity.
Qed.

Lemma float_of_Z_sign (z : Z) (szero : bool) :
  z <> 0 -> signed_nonzero (z <? 0) (float_of_Z z szero).
Proof.
  intros Hz. unfold float_of_Z, binary_normalize.
  assert (H : forall sx p, signed_nonzero sx (binary_round prec emax sx p 0)).
  { intros sx p. unfold binary_round, shl_align.
    destruct (fexp prec emax (Z.pos (digits2_pos p) + 0) - 0) as [| k | k] eqn:Ek;
      apply binary_round_aux_sign; cbn [Zdigits2];
      unfold fexp, SpecFloat.emin, prec, emax in *; lia. }
  destruct z as [| p | p]; [contradiction | apply H | apply H].
Qed.

(** [float(n) > 0] exactly for the positive integers that convert. *)
Lemma float_of_int_gt0 (z : Z) (x : float) :
  float_of_int z = inr x -> float_gt0 x = (0 <? z).
Proof.
  unfold float_of_int. intros H.
  destruct (Z.eq_dec z 0) as [-> | Hz].
  - cbn in H. injection H as <-. reflexivity.
  - pose proof (float_of_Z_sign z false Hz) as Hs.
    destruct (float_of_Z z false) as [s | s | | s m e]; cbn in Hs;
      try contradiction; try discriminate.
    injection H as <-. subst s. unfold float_gt0, SFltb. cbn.
    destruct (Z.ltb_spec z 0), (Z.ltb_spec 0 z); try reflexivity; lia.
Qed.

(** A float that compares above zero is not a zero. *)
Lemma float_gt0_truediv (a b : float) :
  float_gt0 b = true -> float_truediv a b = inr (fdiv a b).
Proof. destruct b; [discriminate | reflexivity ..]. Qed.

(** ** Truncation *)

(** [trunc_float] is the quotient, rounded toward zero, of the numerator of
    the float's value by its denominator. *)
Lemma trunc_float_quot (s : bool) (m : positive) (e : Z) (q : Q) :
  SF2Q (S754_finite s m e) = Some q ->
  trunc_float s m e = Z.quot (Qnum q) (Zpos (Qden q)).
Proof.
  unfold trunc_float. destruct e as [| p | p]; cbn [SF2Q]; intros H;
    injection H as <-; cbn [Qnum Qden inject_Z].
  - change (0 <=? 0) with true. cbn iota.
    rewrite Z.quot_1_r. unfold cond_Zopp. destruct s; lia.
  - change (0 <=? Z.pos p) with true. cbn iota.
    rewrite Z.quot_1_r. unfold cond_Zopp.
    change (Z.pow_pos 2 p) with (2 ^ Z.pos p).
    generalize (2 ^ Z.pos p). intros x. destruct s; ring.
  - change (0 <=? Z.neg p) with false. cbn iota.
    change (- Z.neg p) with (Z.pos p).
    rewrite Pos2Z.inj_pow.
    assert (Hp : 0 < 2 ^ Z.pos p) by (apply Z.pow_pos_nonneg; lia).
    unfold cond_Zopp. destruct s.
    + rewrite Z.quot_opp_l by lia.
      rewrite Z.quot_div_nonneg by lia. reflexivity.
    + rewrite Z.quot_div_nonneg by lia. reflexivity.
Qed.

Lemma dict_lookup_set_same (k : string) (v : pyval) (d : dict) :
  dict_lookup k (dict_set k v d) = Some v.
Proof.
  induction d as [| [k' v'] d IH]; cbn [dict_set dict_lookup].
  - now rewrite String.eqb_refl.
  - destruct (String.eqb k k') eqn:E; cbn [dict_lookup]; rewrite ?String.eqb_refl, ?E; auto.
Qed.

Lemma dict_lookup_set_other (k k' : string) (v : pyval) (d : dict) :
  k' <> k -> dict_lookup k' (dict_set k v d) = dict_lookup k' d.
Proof.
  intros Hk. induction d as [| [k0 v0] d IH]; cbn [dict_set dict_lookup].
  - apply String.eqb_neq in Hk. now rewrite Hk.
  - destruct (String.eqb k k0) eqn:E; cbn [dict_lookup].
    + apply String.eqb_eq in E. subst k0.
      apply String.eqb_neq in Hk. now rewrite Hk.
    + now rewrite IH.
Qed.

(** ** Running computations *)

Lemma bind_inr {A B} (c : Net A) (k : A -> Net B) (w w' : world) (a : A) :
  c w = (inr a, w') -> bind c k w = k a w'.
Proof. intros H. unfold bind. now rewrite H. Qed.

Lemma bind_inl {A B} (c : Net A) (k : A -> Net B) (w w' : world) (e : exn) :
  c w = (inl e, w') -> bind c k w = (inl e, w').
Proof. intros H. unfold bind. now rewrite H. Qed.

(** [exc = ...; raise exc] never returns. *)
Lemma reraise_fails {A} (c : Net exn) (w : world) :
  exists e w', bind c (fun exc => @raise A exc) w = (inl e, w').
Proof.
  unfold bind, raise. destruct (c w) as [[e | x] w']; eauto.
Qed.

Lemma bind_inv_inr {A B} (c : Net A) (k : A -> Net B) (w w' : world) (b : B) :
  bind c k w = (inr b, w') ->
  exists a w1, c w = (inr a, w1) /\ k a w1 = (inr b, w').
Proof.
  unfold bind. destruct (c w) as [[e | a] w1]; [discriminate | eauto].
Qed.

Lemma lift_inv {A} (r : result A) (w w' : world) (x : result A) :
  lift r w = (x, w') -> r = x /\ w' = w.
Proof. unfold lift. intros H. injection H as <- <-. auto. Qed.

(** ** Endpoint resolution *)

Lemma _get_api_base_url_cases (chain_id : Z) :
  (chain_id = 8453 /\ _get_api_base_url chain_id = inr FIBROUS_API_BASE) \/
  (chain_id = 534352 /\ _get_api_base_url chain_id = inr FIBROUS_API_SCROLL) \/
  (chain_id = 999 /\ _get_api_base_url chain_id = inr FIBROUS_API_HYPEREVM) \/
  (~ In chain_id supported_chains /\
   _get_api_base_url chain_id = inl (unsupported_chain chain_id)).
Proof.
  unfold _get_api_base_url, CHAIN_ID_TO_API_BASE, chain_lookup, supported_chains.
  rewrite (Z.eqb_sym 8453), (Z.eqb_sym 534352), (Z.eqb_sym 999).
  destruct (Z.eqb_spec chain_id 8453) as [-> | H1]; [now left |].
  destruct (Z.eqb_spec chain_id 534352) as [-> | H2]; [right; now left |].
  destruct (Z.eqb_spec chain_id 999) as [-> | H3]; [right; right; now left |].
  right; right; right. split; [| reflexivity].
  simpl. intros [H | [H | [H | []]]]; congruence.
Qed.

(** C3 (amended). Resolution succeeds exactly on the chains 8453, 534352 and
    999, with a non-empty URL that no other chain id resolves to; on every
    other chain id it raises the builtin [ValueError] whose text names the
    chain id. *)
Theorem resolve_supported_or_ValueError (chain_id : Z) :
  match _get_api_base_url chain_id with
  | inr url =>
      In chain_id supported_chains /\ url <> "" /\
      (forall c, _get_api_base_url c = inr url -> c = chain_id)
  | inl e =>
      ~ In chain_id supported_chains /\
      e = ValueError ("Fibrous does not support chain_id " ++ str_of_int chain_id)
  end.
Proof.
  destruct (_get_api_base_url_cases chain_id)
    as [[-> ->] | [[-> ->] | [[-> ->] | [Hout ->]]]].
  4: { split; [exact Hout | reflexivity]. }
  all: split; [simpl; tauto |]; split; [discriminate |];
    intros c Hc;
    destruct (_get_api_base_url_cases c)
      as [[-> E] | [[-> E] | [[-> E] | [_ E]]]];
    rewrite E in Hc; first [reflexivity | discriminate].
Qed.

(** ** The request executor *)

Section Properties.

Variable PROVIDER_NAME : string.
Variable NATIVE_TOKEN_ADDRESS : string.
Variable base_handle_exception : exn -> dict -> option provider_error.
Variable str_exn : exn -> string.
Variable py_repr : pyval -> string.
Variable float_of_literal : string -> option float.
Variable new_SwapSources : pyval -> pyval -> option SwapSources.
Variable upstream : request -> outcome.
Variable duplicate_keyword_is_KeyError : bool.

Local Abbreviation make_request := (_make_request upstream).
Local Abbreviation classify :=
  (handle_exception PROVIDER_NAME base_handle_exception str_exn
     duplicate_keyword_is_KeyError).
Local Abbreviation swap_price :=
  (get_swap_price PROVIDER_NAME NATIVE_TOKEN_ADDRESS base_handle_exception
     str_exn py_repr float_of_literal new_SwapSources upstream
     duplicate_keyword_is_KeyError).
Local Abbreviation swap_quote :=
  (get_swap_quote PROVIDER_NAME base_handle_exception
     str_exn py_repr float_of_literal new_SwapSources upstream
     duplicate_keyword_is_KeyError).
Local Abbreviation health := (health_check upstream).

(** What [_make_request] does, by the answer of the upstream. *)
Lemma make_request_run (url : string) (params : option dict) (w : world) :
  make_request url params "GET" None w =
  match upstream (the_request url params) with
  | Fails e => (inl e, sent w (the_request url params))
  | Responds r =>
      let w' := answered w (the_request url params) r in
      match resp_body r with
      | BodyFails f => (inl (read_exn f), w')
      | BodyEmpty => (inr (PDict []), w')
      | BodyInvalid => (inl JSONDecodeError, w')
      | BodyJson data =>
          match resp_raise_for_status r with
          | None => (inr data, w')
          | Some e_status =>
              match data with
              | PDict d =>
                  (inl (ClientResponseError (normalize_status e_status)
                          (PList [PDict (dict_set "source"
                                           (PStr "proxied Fibrous API") d)])),
                   w')
              | _ => (inl TypeError, w')
              end
          end
      end
  end.
Proof.
  unfold _make_request, bind, send, log, the_request, answered, logged, sent.
  change (lower "GET") with "get".
  destruct (upstream _) as [e | r]; [reflexivity |].
  destruct (resp_body r) as [| | data | e]; try reflexivity.
  destruct (resp_raise_for_status r); [| reflexivity].
  destruct data; reflexivity.
Qed.

(** C9 (amended). When the upstream answers and [raise_for_status] raises
    with status [s] on a body that is a JSON object, the error
    [_make_request] raises carries 500 if [s] lies outside 100..599 and [s]
    itself otherwise, together with the body tagged with its source. *)
Theorem make_request_normalizes_status (url : string) (params : option dict)
    (d : dict) (s : Z) (w : world) :
  upstream (the_request url params) =
    Responds {| resp_body := BodyJson (PDict d);
                resp_raise_for_status := Some s |} ->
  exists status,
    make_request url params "GET" None w =
      (inl (ClientResponseError status
              (PList [PDict (dict_set "source" (PStr "proxied Fibrous API") d)])),
       answered w (the_request url params)
         {| resp_body := BodyJson (PDict d);
            resp_raise_for_status := Some s |}) /\
    (s < 100 \/ 599 < s -> status = 500) /\
    (100 <= s <= 599 -> status = s).
Proof.
  intros Hup. exists (normalize_status s).
  rewrite make_request_run, Hup. cbn.
  split; [reflexivity |]. unfold normalize_status.
  destruct (Z.leb_spec 100 s), (Z.ltb_spec s 600); cbn; split; lia.
Qed.

(** ** The classifier *)

Lemma classify_message_total (msg : string) :
  exists k, classify_message msg = inr k /\ own_kind k = true.
Proof.
  rewrite classify_message_unfold.
  destruct (str_in "insufficient liquidity" (lower msg)); [eauto |].
  destruct (str_in "insufficient balance" (lower msg)); [eauto |].
  destruct (str_in "cannot estimate" (lower msg)); [eauto |].
  destruct (str_in "no route found" (lower msg)); eauto.
Qed.

(** The shared classifier wins when it recognises the exception. *)
Lemma classify_shared (e : exn) (kwargs : dict) (d : provider_error) (w : world) :
  base_handle_exception e kwargs = Some d ->
  classify e kwargs w = (inr (ProviderError d), logged w (LogError d)).
Proof.
  intros H. unfold handle_exception. rewrite H. reflexivity.
Qed.

(** Otherwise a message that is text is classified by the table. *)
Lemma classify_own (e : exn) (kwargs : dict) (msg : string) (w : world) :
  base_handle_exception e kwargs = None ->
  error_message str_exn e = inr (PStr msg) ->
  dict_has "url" kwargs = false ->
  exists k,
    classify_message msg = inr k /\ own_kind k = true /\
    let d := {| err_kind := k; err_provider := PROVIDER_NAME;
                err_message := PStr msg; err_url := PStr "";
                err_context := kwargs |} in
    classify e kwargs w = (inr (ProviderError d), logged w (LogWarning d)).
Proof.
  intros Hbase Hmsg Hurl.
  destruct (classify_message_total msg) as (k & Hk & Hown).
  exists k. split; [exact Hk |]. split; [exact Hown |].
  unfold handle_exception. rewrite Hbase.
  unfold bind, lift. rewrite Hmsg.
  unfold classify_message in Hk. rewrite Hk, Hurl.
  unfold dict_get. unfold dict_has in Hurl.
  destruct (dict_lookup "url" kwargs); [discriminate | reflexivity].
Qed.

(** ** Quote lookup: the mandatory address *)

(** C7. With a taker address that is [None] or empty, [get_swap_quote]
    raises [ValueError], which is not an error of the taxonomy, and leaves
    the world as it found it: no request is sent and nothing is logged. *)
Theorem quote_requires_taker (buy_token sell_token : string)
    (sell_amount chain_id : Z) (taker_address : option string)
    (gas_price : option Z) (slippage_percentage : option float) (w : world) :
  missing taker_address = true ->
  exists e,
    swap_quote buy_token sell_token sell_amount chain_id taker_address
      gas_price slippage_percentage w = (inl e, w) /\
    e = ValueError "taker_address is required for Fibrous quote" /\
    (forall d, e <> ProviderError d).
Proof.
  intros Hmiss. eexists. split; [| split; [reflexivity | discriminate]].
  destruct taker_address as [[| c t] |]; try discriminate; reflexivity.
Qed.

(** ** Price lookup, step by step *)

Lemma bind_lift_inr {A B} (a : A) (k : A -> Net B) (w : world) :
  bind (lift (inr a)) k w = k a w.
Proof. reflexivity. Qed.

(** The three ways a lookup ends once the request is built: the request
    fails, the response cannot be transformed, or the model is returned. *)
Lemma swap_price_run (buy_token sell_token : string) (sell_amount chain_id : Z)
    (gas_price : option Z) (slippage_percentage : option float) (w : world)
    (api_base : string) (query : dict) :
  _get_api_base_url chain_id = inr api_base ->
  price_query buy_token sell_token sell_amount slippage_percentage = inr query ->
  swap_price buy_token sell_token sell_amount chain_id gas_price
    slippage_percentage w =
  match make_request (api_base ++ "/route") (Some query) "GET" None w with
  | (inl e, w1) =>
      if is_request_failure e
      then bind (classify e (request_context query sell_token chain_id))
             (fun exc => raise exc) w1
      else (inl e, w1)
  | (inr response, w1) =>
      match price_response PROVIDER_NAME NATIVE_TOKEN_ADDRESS py_repr
              float_of_literal new_SwapSources sell_token sell_amount gas_price
              response with
      | inr res => (inr res, w1)
      | inl e =>
          if is_transform_failure e
          then bind (classify e (transform_context response "get_swap_price"
                                   (api_base ++ "/route") query chain_id))
                 (fun exc => raise exc) w1
          else (inl e, w1)
      end
  end.
Proof.
  intros Hbase Hquery. unfold get_swap_price.
  rewrite Hbase, bind_lift_inr. cbv zeta. rewrite Hquery, bind_lift_inr.
  unfold bind at 1. unfold try_except at 1.
  destruct (make_request _ _ _ _ w) as [[e | response] w1].
  - destruct (is_request_failure e); [| reflexivity].
    unfold bind, raise.
    destruct (classify e _ w1) as [[e1 | exc] w2]; reflexivity.
  - unfold try_except, lift.
    destruct (price_response _ _ _ _ _ _ _ _ response) as [e | res];
      reflexivity.
Qed.

Lemma swap_quote_run (buy_token sell_token : string) (sell_amount chain_id : Z)
    (taker : string) (gas_price : option Z) (slippage_percentage : option float)
    (w : world) (api_base : string) (query : dict) :
  missing (Some taker) = false ->
  _get_api_base_url chain_id = inr api_base ->
  quote_query buy_token sell_token sell_amount taker slippage_percentage
    = inr query ->
  swap_quote buy_token sell_token sell_amount chain_id (Some taker) gas_price
    slippage_percentage w =
  match make_request (api_base ++ "/calldata") (Some query) "GET" None w with
  | (inl e, w1) =>
      if is_request_failure e
      then bind (classify e (request_context query sell_token chain_id
                               ++ [("wallet", PStr taker)])%list)
             (fun exc => raise exc) w1
      else (inl e, w1)
  | (inr response, w1) =>
      match quote_response py_repr float_of_literal new_SwapSources
              sell_amount gas_price response with
      | inr res => (inr res, w1)
      | inl e =>
          if is_transform_failure e
          then bind (classify e (transform_context response "get_swap_quote"
                                   (api_base ++ "/calldata") query chain_id))
                 (fun exc => raise exc) w1
          else (inl e, w1)
      end
  end.
Proof.
  intros Htaker Hbase Hquery. unfold get_swap_quote.
  destruct taker as [| c t]; [discriminate |].
  rewrite Hbase, bind_lift_inr. cbv zeta. rewrite Hquery, bind_lift_inr.
  unfold bind at 1. unfold try_except at 1.
  destruct (make_request _ _ _ _ w) as [[e | response] w1].
  - destruct (is_request_failure e); [| reflexivity].
    unfold bind, raise.
    destruct (classify e _ w1) as [[e1 | exc] w2]; reflexivity.
  - unfold try_except, lift.
    destruct (quote_response _ _ _ _ _ response) as [e | res]; reflexivity.
Qed.

(** Classification talks to the logger only. *)
Lemma classify_calls (e : exn) (kwargs : dict) (w : world) :
  calls (snd (classify e kwargs w)) = calls w.
Proof.
  unfold handle_exception.
  destruct (base_handle_exception e kwargs); [reflexivity |].
  unfold bind, lift.
  destruct (error_message str_exn e) as [e1 | msg]; [reflexivity |].
  destruct (scan_patterns FIBROUS_ERRORS msg) as [e2 | k]; [reflexivity |].
  destruct (dict_has "url" kwargs); reflexivity.
Qed.

Lemma reraise_calls {A} (e : exn) (kwargs : dict) (w : world) :
  calls (snd (bind (classify e kwargs) (fun exc => @raise A exc) w)) = calls w.
Proof.
  pose proof (classify_calls e kwargs w) as H. unfold bind, raise.
  destruct (classify e kwargs w) as [[e1 | exc] w1]; exact H.
Qed.

Lemma make_request_calls (url : string) (params : option dict) (w : world) :
  calls (snd (make_request url params "GET" None w)) =
  (calls w ++ [the_request url params])%list.
Proof.
  rewrite make_request_run. cbv zeta.
  destruct (upstream _) as [e | r]; [reflexivity |].
  destruct (resp_body r) as [| | data | e']; try reflexivity.
  destruct (resp_raise_for_status r); [| reflexivity].
  destruct data; reflexivity.
Qed.

(** A lookup whose request can be built sends exactly that one request. *)
Lemma swap_price_sends (buy_token sell_token : string) (sell_amount chain_id : Z)
    (gas_price : option Z) (slippage_percentage : option float) (w : world)
    (api_base : string) (query : dict) :
  _get_api_base_url chain_id = inr api_base ->
  price_query buy_token sell_token sell_amount slippage_percentage = inr query ->
  calls (snd (swap_price buy_token sell_token sell_amount chain_id gas_price
                slippage_percentage w)) =
  (calls w ++ [the_request (api_base ++ "/route") (Some query)])%list.
Proof.
  intros Hbase Hquery.
  rewrite (swap_price_run _ _ _ _ _ _ _ _ _ Hbase Hquery).
  pose proof (make_request_calls (api_base ++ "/route") (Some query) w) as Hc.
  destruct (make_request _ _ _ _ w) as [[e | response] w1]; cbn [snd] in Hc.
  - destruct (is_request_failure e); [rewrite reraise_calls |]; exact Hc.
  - destruct (price_response _ _ _ _ _ _ _ _ response) as [e | res];
      [| exact Hc].
    destruct (is_transform_failure e); [rewrite reraise_calls |]; exact Hc.
Qed.

Lemma swap_quote_sends (buy_token sell_token : string) (sell_amount chain_id : Z)
    (taker : string) (gas_price : option Z) (slippage_percentage : option float)
    (w : world) (api_base : string) (query : dict) :
  missing (Some taker) = false ->
  _get_api_base_url chain_id = inr api_base ->
  quote_query buy_token sell_token sell_amount taker slippage_percentage
    = inr query ->
  calls (snd (swap_quote buy_token sell_token sell_amount chain_id (Some taker)
                gas_price slippage_percentage w)) =
  (calls w ++ [the_request (api_base ++ "/calldata") (Some query)])%list.
Proof.
  intros Htaker Hbase Hquery.
  rewrite (swap_quote_run _ _ _ _ _ _ _ _ _ _ Htaker Hbase Hquery).
  pose proof (make_request_calls (api_base ++ "/calldata") (Some query) w) as Hc.
  destruct (make_request _ _ _ _ w) as [[e | response] w1]; cbn [snd] in Hc.
  - destruct (is_request_failure e); [rewrite reraise_calls |]; exact Hc.
  - destruct (quote_response _ _ _ _ _ response) as [e | res]; [| exact Hc].
    destruct (is_transform_failure e); [rewrite reraise_calls |]; exact Hc.
Qed.

(** The classifier of a price lookup is handed the normalized status. *)
Lemma classifier_receives_normalized_status (buy_token sell_token : string)
    (amount chain_id : Z) (gas_price : option Z)
    (slippage_percentage : option float) (w : world)
    (api_base : string) (query d : dict) (s : Z) :
  _get_api_base_url chain_id = inr api_base ->
  price_query buy_token sell_token amount slippage_percentage = inr query ->
  upstream (the_request (api_base ++ "/route") (Some query)) =
    Responds {| resp_body := BodyJson (PDict d);
                resp_raise_for_status := Some s |} ->
  swap_price buy_token sell_token amount chain_id gas_price
    slippage_percentage w =
  bind (classify (ClientResponseError (normalize_status s)
                    (PList [PDict (dict_set "source"
                                     (PStr "proxied Fibrous API") d)]))
          (request_context query sell_token chain_id))
    (fun exc => raise exc)
    (answered w (the_request (api_base ++ "/route") (Some query))
       {| resp_body := BodyJson (PDict d); resp_raise_for_status := Some s |}).
Proof.
  intros Hbase Hquery Hup.
  rewrite (swap_price_run _ _ _ _ _ _ _ _ _ Hbase Hquery).
  rewrite make_request_run, Hup. reflexivity.
Qed.


(** ** Slippage *)

Lemma int_of_float_quot (x : float) (y : Q) :
  SF2Q x = Some y -> int_of_float x = inr (Z.quot (Qnum y) (Zpos (Qden y))).
Proof.
  destruct x as [s | s | | s m e]; try discriminate.
  - intros H. injection H as <-. reflexivity.
  - intros H. cbn [int_of_float]. now rewrite (trunc_float_quot _ _ _ _ H).
Qed.

Lemma float_truthy_nonzero (x : float) :
  float_truthy x = true <-> (forall s, x <> S754_zero s).
Proof.
  destruct x; cbn; split; try discriminate; try reflexivity.
  intros H. now destruct (H s).
Qed.

Lemma with_slippage_absent (slippage_percentage : option float) (query : dict) :
  slippage_percentage = None \/
  (exists s, slippage_percentage = Some (S754_zero s)) ->
  with_slippage slippage_percentage query = inr query.
Proof. intros [-> | (s & ->)]; reflexivity. Qed.

Lemma with_slippage_not_finite (x : float) (query : dict) :
  float_truthy x = true ->
  SF2Q (fmul x (float_of_Z 10000 false)) = None ->
  exists e, with_slippage (Some x) query = inl e.
Proof.
  intros Hx Hy. cbn [with_slippage]. rewrite Hx.
  destruct (fmul x (float_of_Z 10000 false)) as [s | s | | s m e];
    cbn in Hy |- *; try discriminate; try (eexists; reflexivity).
  destruct e; discriminate.
Qed.

Lemma with_slippage_given (x : float) (y : Q) (query : dict) :
  float_truthy x = true ->
  SF2Q (fmul x (float_of_Z 10000 false)) = Some y ->
  with_slippage (Some x) query =
  inr (dict_set "slippage" (PInt (Z.quot (Qnum y) (Zpos (Qden y)))) query).
Proof.
  intros Hx Hy. cbn [with_slippage]. rewrite Hx.
  now rewrite (int_of_float_quot _ _ Hy).
Qed.

(** C6 (amended). On a supported chain, with a taker address for the quote:
    when the slippage is omitted or is a zero, [0.0] or [-0.0], the request
    carries the plain parameters, which have no [slippage] entry. When it is
    any other float [x], the binary64 product [x * 10000.0] decides: if the
    product is a finite float, of value [y], the request carries the plain
    parameters and [slippage], the integer obtained from [y] by truncation
    toward zero; if the product is NaN or an infinity, the lookup raises and
    no request is sent. *)
Theorem slippage_basis_points (buy_token sell_token : string)
    (sell_amount chain_id : Z) (taker : string) (gas_price : option Z)
    (slippage_percentage : option float) (w : world) (api_base : string) :
  _get_api_base_url chain_id = inr api_base ->
  missing (Some taker) = false ->
  let plain_route := route_params buy_token sell_token sell_amount in
  let plain_calldata := calldata_params buy_token sell_token sell_amount taker in
  let price_run := swap_price buy_token sell_token sell_amount chain_id
                     gas_price slippage_percentage w in
  let quote_run := swap_quote buy_token sell_token sell_amount chain_id
                     (Some taker) gas_price slippage_percentage w in
  let price_calls params :=
    calls (snd price_run) =
    (calls w ++ [the_request (api_base ++ "/route") (Some params)])%list in
  let quote_calls params :=
    calls (snd quote_run) =
    (calls w ++ [the_request (api_base ++ "/calldata") (Some params)])%list in
  (slippage_percentage = None \/
   (exists s, slippage_percentage = Some (S754_zero s)) ->
   price_calls plain_route /\ quote_calls plain_calldata /\
   dict_lookup "slippage" plain_route = None /\
   dict_lookup "slippage" plain_calldata = None) /\
  (forall x,
      slippage_percentage = Some x ->
      (forall s, x <> S754_zero s) ->
      let product := fmul x (float_of_Z 10000 false) in
      (forall y,
          SF2Q product = Some y ->
          let bps := Z.quot (Qnum y) (Zpos (Qden y)) in
          price_calls (plain_route ++ [("slippage", PInt bps)])%list /\
          quote_calls (plain_calldata ++ [("slippage", PInt bps)])%list) /\
      (SF2Q product = None ->
       exists e, price_run = (inl e, w) /\ quote_run = (inl e, w))).
Proof.
  intros Hbase Htaker. cbv zeta. split.
  - intros Habs. repeat split.
    + apply swap_price_sends; [exact Hbase |].
      apply with_slippage_absent, Habs.
    + apply swap_quote_sends; [exact Htaker | exact Hbase |].
      apply with_slippage_absent, Habs.
  - intros x -> Hx. apply float_truthy_nonzero in Hx. split.
    + intros y Hy. split.
      * apply swap_price_sends; [exact Hbase |].
        unfold price_query. rewrite (with_slippage_given _ _ _ Hx Hy).
        reflexivity.
      * apply swap_quote_sends; [exact Htaker | exact Hbase |].
        unfold quote_query. rewrite (with_slippage_given _ _ _ Hx Hy).
        reflexivity.
    + intros Hy.
      destruct (with_slippage_not_finite x [] Hx Hy) as (e & He).
      assert (Hs : forall q0, with_slippage (Some x) q0 = inl e).
      { intros q0. cbn [with_slippage] in He |- *. rewrite Hx in He |- *.
        destruct (int_of_float _); [exact He | discriminate]. }
      exists e. split.
      * unfold get_swap_price. rewrite Hbase, bind_lift_inr. cbv zeta.
        unfold price_query. rewrite Hs. reflexivity.
      * destruct taker as [| c t]; [discriminate |].
        unfold get_swap_quote. rewrite Hbase, bind_lift_inr. cbv zeta.
        unfold quote_query. rewrite Hs. reflexivity.
Qed.

(** ** Failures of the request *)

(** C2 (amended). When the request executor raises an HTTP-status failure, a
    timeout or a server disconnection, and the message to classify is text
    whenever the shared classifier declines, [get_swap_price] raises an error
    of the taxonomy: the shared classifier's own result, logged as an error,
    or else the class the pattern table gives the message (liquidity,
    estimation or the generic provider error), logged as a warning. *)
Theorem request_failures_are_classified (buy_token sell_token : string)
    (sell_amount chain_id : Z) (gas_price : option Z)
    (slippage_percentage : option float) (w w1 : world)
    (api_base : string) (query : dict) (e : exn) :
  _get_api_base_url chain_id = inr api_base ->
  price_query buy_token sell_token sell_amount slippage_percentage = inr query ->
  make_request (api_base ++ "/route") (Some query) "GET" None w = (inl e, w1) ->
  is_request_failure e = true ->
  let kwargs := request_context query sell_token chain_id in
  (base_handle_exception e kwargs = None ->
   exists msg, error_message str_exn e = inr (PStr msg)) ->
  exists d l,
    swap_price buy_token sell_token sell_amount chain_id gas_price
      slippage_percentage w = (inl (ProviderError d), logged w1 l) /\
    ((base_handle_exception e kwargs = Some d /\ l = LogError d) \/
     (base_handle_exception e kwargs = None /\ l = LogWarning d /\
      own_kind (err_kind d) = true /\
      exists msg, error_message str_exn e = inr (PStr msg) /\
                  err_message d = PStr msg /\
                  classify_message msg = inr (err_kind d))).
Proof.
  intros Hbase Hquery Hreq He kwargs Hmsg.
  rewrite (swap_price_run _ _ _ _ _ _ _ _ _ Hbase Hquery), Hreq, He.
  destruct (base_handle_exception e kwargs) as [d |] eqn:Hshared.
  - exists d, (LogError d). split; [| left; auto].
    unfold bind. fold kwargs. now rewrite (classify_shared _ _ _ _ Hshared).
  - destruct (Hmsg eq_refl) as [msg Hm].
    destruct (classify_own e kwargs msg w1 Hshared Hm eq_refl)
      as (k & Hk & Hown & Hrun). cbv zeta in Hrun.
    eexists. eexists. split.
    + unfold bind. fold kwargs. rewrite Hrun. reflexivity.
    + right. repeat split; [exact Hown |].
      exists msg. repeat split; [exact Hm | exact Hk].
Qed.

(** A timeout or a disconnection always has a text to classify. *)
Lemma transport_message_is_text (e : exn) :
  e = TimeoutError \/ e = ServerDisconnectedError ->
  error_message str_exn e = inr (PStr (str_exn e)).
Proof. intros [-> | ->]; reflexivity. Qed.

(** ** The price *)

Local Abbreviation price_of := (compute_price float_of_literal).
Local Abbreviation to_price :=
  (price_response PROVIDER_NAME NATIVE_TOKEN_ADDRESS py_repr float_of_literal
     new_SwapSources).
Local Abbreviation to_quote :=
  (quote_response py_repr float_of_literal new_SwapSources).

Lemma compute_price_inv (sell_amount : Z) (output_amount p : pyval) :
  price_of sell_amount output_amount = inr p ->
  exists xs xb,
    float_of_int sell_amount = inr xs /\
    py_float float_of_literal output_amount = inr xb /\
    p = if 0 <? sell_amount then PFloat (fdiv xb xs) else PInt 0.
Proof.
  unfold compute_price, rbind.
  destruct (float_of_int sell_amount) as [e | xs] eqn:Hs; [discriminate |].
  destruct (py_float float_of_literal output_amount) as [e | xb]; [discriminate |].
  rewrite (float_of_int_gt0 _ _ Hs). intros H. exists xs, xb.
  split; [reflexivity |]. split; [reflexivity |].
  destruct (0 <? sell_amount) eqn:Hpos.
  - rewrite float_gt0_truediv in H
      by (rewrite (float_of_int_gt0 _ _ Hs); exact Hpos).
    now injection H as <-.
  - now injection H as <-.
Qed.

Lemma float_of_int_error (z : Z) (e : exn) :
  float_of_int z = inl e -> e = OverflowError.
Proof.
  unfold float_of_int. destruct (float_of_Z z false); intros H;
    first [discriminate | now injection H as <-].
Qed.


Lemma build_sources_no_zero_division (steps : list pyval) :
  build_sources new_SwapSources steps <> inl ZeroDivisionError.
Proof.
  induction steps as [| step rest IH]; cbn [build_sources]; [discriminate |].
  unfold rbind. destruct step; cbn [py_get]; try discriminate.
  destruct (new_SwapSources _ _); [| discriminate].
  destruct (build_sources new_SwapSources rest) as [e | l]; [| discriminate].
  intros H. apply IH. now injection H as ->.
Qed.

Lemma extract_sources_no_zero_division (response : pyval) :
  extract_sources new_SwapSources response <> inl ZeroDivisionError.
Proof.
  unfold extract_sources, rbind.
  destruct response; cbn [py_get]; try discriminate.
  destruct (truthy _); [| discriminate].
  destruct (iterate _) as [e | steps] eqn:Hit.
  - destruct (dict_get "route" d (PList [])); cbn in Hit;
      try discriminate; injection Hit as <-; discriminate.
  - apply build_sources_no_zero_division.
Qed.

(** What a successful transformation says about the response it read. *)
Lemma price_response_inv (sell_token : string) (amount : Z)
    (gas_price : option Z) (response : pyval) (res : ProviderPriceResponse) :
  to_price sell_token amount gas_price response = inr res ->
  exists d p,
    response = PDict d /\
    price_of amount (dict_get "outputAmount" d (PStr "0")) = inr p /\
    price res = py_str py_repr p /\
    value res = (if String.eqb (lower sell_token) NATIVE_TOKEN_ADDRESS
                 then str_of_int amount else "0") /\
    buy_amount res = py_str py_repr (dict_get "outputAmount" d (PStr "0")) /\
    sell_amount res = str_of_int amount.
Proof.
  unfold price_response, rbind.
  destruct response as [| | | | | | d]; cbn [py_get]; try discriminate.
  destruct (price_of amount _) as [e | p] eqn:Hp; [discriminate |].
  destruct (extract_sources new_SwapSources (PDict d)) as [e | srcs];
    [discriminate |].
  intros H. injection H as <-. exists d, p.
  split; [reflexivity |]. split; [exact Hp |]. cbn. repeat split; reflexivity.
Qed.

Lemma quote_response_inv (sell_amount : Z) (gas_price : option Z)
    (response : pyval) (q : ProviderQuoteResponse) :
  to_quote sell_amount gas_price response = inr q ->
  exists d p,
    response = PDict d /\
    price_of sell_amount (dict_get "outputAmount" d (PStr "0")) = inr p /\
    q_price q = py_str py_repr p.
Proof.
  unfold quote_response, rbind.
  destruct response as [| | | | | | d]; cbn [py_get]; try discriminate.
  destruct (price_of sell_amount _) as [e | p] eqn:Hp; [discriminate |].
  destruct (extract_sources new_SwapSources (PDict d)) as [e | srcs];
    [discriminate |].
  intros H. injection H as <-. exists d, p. cbn. auto.
Qed.


(** A lookup that returns has resolved the chain, built the query, received
    a response and transformed it. *)
Lemma swap_price_returns (buy_token sell_token : string) (amount chain_id : Z)
    (gas_price : option Z) (slippage_percentage : option float) (w w' : world)
    (res : ProviderPriceResponse) :
  swap_price buy_token sell_token amount chain_id gas_price
    slippage_percentage w = (inr res, w') ->
  exists api_base query response,
    _get_api_base_url chain_id = inr api_base /\
    price_query buy_token sell_token amount slippage_percentage = inr query /\
    make_request (api_base ++ "/route") (Some query) "GET" None w
      = (inr response, w') /\
    to_price sell_token amount gas_price response = inr res.
Proof.
  intros H.
  destruct (_get_api_base_url chain_id) as [e | api_base] eqn:Hbase.
  { unfold get_swap_price in H. rewrite Hbase in H. discriminate. }
  destruct (price_query buy_token sell_token amount slippage_percentage)
    as [e | query] eqn:Hquery.
  { unfold get_swap_price in H. rewrite Hbase, bind_lift_inr in H.
    cbv zeta in H. rewrite Hquery in H. discriminate. }
  rewrite (swap_price_run _ _ _ _ _ _ _ _ _ Hbase Hquery) in H.
  exists api_base, query.
  destruct (make_request _ _ _ _ w) as [[e | response] w1].
  - destruct (is_request_failure e); [| discriminate].
    destruct (reraise_fails (A:=ProviderPriceResponse) (classify e
                (request_context query sell_token chain_id)) w1)
      as (e' & w2 & Hf).
    rewrite Hf in H. discriminate.
  - destruct (to_price sell_token amount gas_price response) as [e | r] eqn:Ht.
    + destruct (is_transform_failure e); [| discriminate].
      destruct (reraise_fails (A:=ProviderPriceResponse) (classify e
                  (transform_context response "get_swap_price"
                     (api_base ++ "/route") query chain_id)) w1)
        as (e' & w2 & Hf).
      rewrite Hf in H. discriminate.
    + injection H as <- <-. exists response. auto.
Qed.

Lemma swap_quote_returns (buy_token sell_token : string) (amount chain_id : Z)
    (taker_address : option string) (gas_price : option Z)
    (slippage_percentage : option float) (w w' : world)
    (q : ProviderQuoteResponse) :
  swap_quote buy_token sell_token amount chain_id taker_address gas_price
    slippage_percentage w = (inr q, w') ->
  exists taker api_base query response,
    taker_address = Some taker /\
    _get_api_base_url chain_id = inr api_base /\
    quote_query buy_token sell_token amount taker slippage_percentage
      = inr query /\
    make_request (api_base ++ "/calldata") (Some query) "GET" None w
      = (inr response, w') /\
    to_quote amount gas_price response = inr q.
Proof.
  intros H.
  destruct taker_address as [[| c t] |]; try discriminate.
  set (taker := String c t) in *.
  assert (Hmiss : missing (Some taker) = false) by reflexivity.
  destruct (_get_api_base_url chain_id) as [e | api_base] eqn:Hbase.
  { unfold get_swap_quote in H. cbn [taker] in H. rewrite Hbase in H.
    discriminate. }
  destruct (quote_query buy_token sell_token amount taker slippage_percentage)
    as [e | query] eqn:Hquery.
  { unfold get_swap_quote in H. cbn [taker] in H.
    rewrite Hbase, bind_lift_inr in H.
    cbv zeta in H. fold taker in H. rewrite Hquery in H. discriminate. }
  rewrite (swap_quote_run _ _ _ _ _ _ _ _ _ _ Hmiss Hbase Hquery) in H.
  exists taker, api_base, query.
  destruct (make_request _ _ _ _ w) as [[e | response] w1].
  - destruct (is_request_failure e); [| discriminate].
    destruct (reraise_fails (A:=ProviderQuoteResponse) (classify e
                (request_context query sell_token chain_id
                   ++ [("wallet", PStr taker)])%list) w1)
      as (e' & w2 & Hf).
    rewrite Hf in H. discriminate.
  - destruct (to_quote amount gas_price response) as [e | r] eqn:Ht.
    + destruct (is_transform_failure e); [| discriminate].
      destruct (reraise_fails (A:=ProviderQuoteResponse) (classify e
                  (transform_context response "get_swap_quote"
                     (api_base ++ "/calldata") query chain_id)) w1)
        as (e' & w2 & Hf).
      rewrite Hf in H. discriminate.
    + injection H as <- <-. exists response. auto 6.
Qed.


(** ** The native-token value *)

(** C4. When [get_swap_price] returns and the configured sentinel is stored
    in lower case, [value] is the text of the sell amount if the sell token
    equals the sentinel up to case, and ["0"] if it does not; for a non-zero
    amount, [value] is the text of the amount exactly when the token matches. *)
Theorem native_token_value (buy_token sell_token : string)
    (amount chain_id : Z) (gas_price : option Z)
    (slippage_percentage : option float) (w w' : world)
    (res : ProviderPriceResponse) :
  lower NATIVE_TOKEN_ADDRESS = NATIVE_TOKEN_ADDRESS ->
  swap_price buy_token sell_token amount chain_id gas_price
    slippage_percentage w = (inr res, w') ->
  (lower sell_token = lower NATIVE_TOKEN_ADDRESS ->
   value res = str_of_int amount) /\
  (lower sell_token <> lower NATIVE_TOKEN_ADDRESS -> value res = "0") /\
  (amount <> 0 ->
   (value res = str_of_int amount <->
    lower sell_token = lower NATIVE_TOKEN_ADDRESS)).
Proof.
  intros Hlow H.
  destruct (swap_price_returns _ _ _ _ _ _ _ _ _ H)
    as (api_base & query & response & _ & _ & _ & Ht).
  destruct (price_response_inv _ _ _ _ _ Ht) as (d & p & _ & _ & _ & Hv & _).
  rewrite Hlow, Hv.
  destruct (String.eqb_spec (lower sell_token) NATIVE_TOKEN_ADDRESS) as [E | E].
  - split; [reflexivity |]. split; [contradiction |]. tauto.
  - split; [contradiction |]. split; [reflexivity |].
    intros Hnz. split; [| contradiction].
    intros Hs. exfalso. apply Hnz.
    apply str_of_int_inj. now rewrite <- Hs.
Qed.

(** ** Health check *)

Lemma health_run (chain_id : Z) (w : world) :
  health chain_id w =
  match _get_api_base_url chain_id with
  | inl e => (inr (PBool false), logged w (LogHealth chain_id e))
  | inr api_base =>
      match make_request (api_base ++ "/healthCheck") None "GET" None w with
      | (inl e, w1) => (inr (PBool false), logged w1 (LogHealth chain_id e))
      | (inr response, w1) =>
          match health_verdict response with
          | inr v => (inr v, w1)
          | inl e => (inr (PBool false), logged w1 (LogHealth chain_id e))
          end
      end
  end.
Proof.
  unfold health_check, try_except.
  destruct (_get_api_base_url chain_id) as [e | api_base]; [reflexivity |].
  rewrite bind_lift_inr. cbv zeta. unfold bind at 1.
  destruct (make_request _ _ _ _ w) as [[e | response] w1]; [reflexivity |].
  unfold lift. destruct (health_verdict response); reflexivity.
Qed.

Lemma health_verdict_dict (d : dict) :
  health_verdict (PDict d) =
  match dict_get "status" d (PStr "") with
  | PStr s =>
      if String.eqb (lower s) "ok" then inr (PBool true)
      else inr (dict_get "healthy" d (PBool false))
  | _ => inl AttributeError
  end.
Proof.
  unfold health_verdict, rbind. cbn [py_get].
  destruct (dict_get "status" d (PStr "")); reflexivity.
Qed.

(** C8 (amended). [health_check] always returns a value and never raises.
    The value is [False] when the chain is unsupported, when the request
    executor raises, when the body it returns is not a JSON object, and when
    the [status] of that object is present but not a string. For an object
    whose [status] is absent or a string, the value is truthy exactly when
    [status] equals "ok" up to case or [healthy] is truthy. *)
Theorem health_check_never_raises (chain_id : Z) (w : world) :
  exists v w',
    health chain_id w = (inr v, w') /\
    (forall e, _get_api_base_url chain_id = inl e -> v = PBool false) /\
    (forall api_base e w1,
        _get_api_base_url chain_id = inr api_base ->
        make_request (api_base ++ "/healthCheck") None "GET" None w
          = (inl e, w1) ->
        v = PBool false) /\
    (forall api_base response w1,
        _get_api_base_url chain_id = inr api_base ->
        make_request (api_base ++ "/healthCheck") None "GET" None w
          = (inr response, w1) ->
        (forall d, response <> PDict d) ->
        v = PBool false) /\
    (forall api_base d w1,
        _get_api_base_url chain_id = inr api_base ->
        make_request (api_base ++ "/healthCheck") None "GET" None w
          = (inr (PDict d), w1) ->
        (forall x, dict_lookup "status" d = Some x ->
                   (forall s, x <> PStr s) -> v = PBool false) /\
        (dict_lookup "status" d = None \/
         (exists s, dict_lookup "status" d = Some (PStr s)) ->
         (truthy v = true <->
          (exists s, dict_lookup "status" d = Some (PStr s) /\ lower s = "ok") \/
          truthy (dict_get "healthy" d (PBool false)) = true))).
Proof.
  rewrite health_run.
  destruct (_get_api_base_url chain_id) as [e | api_base].
  { eexists. eexists. split; [reflexivity |].
    repeat split; try discriminate; reflexivity. }
  destruct (make_request _ _ _ _ w) as [[e | response] w1] eqn:Hrun.
  { eexists. eexists. split; [reflexivity |].
    split; [reflexivity |]. split; [reflexivity |]. split; [reflexivity |].
    intros b d w2 Hb Hreq. injection Hb as <-. rewrite Hrun in Hreq.
    discriminate. }
  destruct (health_verdict response) as [e | v] eqn:Hv.
  - (* the verdict raised: the response is no object, or its status no string *)
    eexists. eexists. split; [reflexivity |].
    split; [reflexivity |]. split; [reflexivity |]. split; [reflexivity |].
    intros b d w2 Hb Hreq. injection Hb as <-. rewrite Hrun in Hreq.
    injection Hreq as -> <-.
    split; [reflexivity |].
    rewrite health_verdict_dict in Hv. unfold dict_get in Hv.
    intros [Hnone | [s Hs]].
    + rewrite Hnone in Hv. cbn in Hv. discriminate.
    + rewrite Hs in Hv. destruct (String.eqb (lower s) "ok"); discriminate.
  - exists v, w1. split; [reflexivity |].
    split; [discriminate |]. split.
    { intros b e w2 Hb Hreq. injection Hb as <-. rewrite Hrun in Hreq.
      discriminate. }
    split.
    + intros b r w2 Hb Hreq Hnd. injection Hb as <-. rewrite Hrun in Hreq.
      injection Hreq as <- <-.
      destruct response; cbn in Hv; try discriminate.
      now destruct (Hnd d).
    + intros b d w2 Hb Hreq. injection Hb as <-. rewrite Hrun in Hreq.
      injection Hreq as -> <-.
      rewrite health_verdict_dict in Hv. unfold dict_get in Hv at 1.
      split.
      * intros x Hx Hns. rewrite Hx in Hv.
        destruct x; try discriminate. now destruct (Hns s).
      * intros [Hnone | [s Hs]].
        -- rewrite Hnone in Hv. cbn in Hv. injection Hv as <-.
           split; [now right |].
           intros [(s & Hs & _) | Hh]; [congruence | exact Hh].
        -- rewrite Hs in Hv.
           destruct (String.eqb_spec (lower s) "ok") as [Hok | Hno];
             injection Hv as <-.
           ++ split; [| reflexivity]. intros _. left. now exists s.
           ++ split; [now right |].
              intros [(s' & Hs' & Hok) | Hh]; [| exact Hh].
              rewrite Hs in Hs'. injection Hs' as <-. contradiction.
Qed.

(** C10 (amended). When the executor returns a JSON object that has a
    [healthy] entry, the [status] entry decides. If it is absent or a string
    other than "ok" up to case, [health_check] returns the value of [healthy]
    as it is, whatever its type: the integer 1 and the text "yes" are
    returned as such, and neither is the boolean [True]. If it is present
    and not a string, [health_check] returns [False] and logs the
    [AttributeError] of [status.lower()]. *)
Theorem health_check_returns_raw_healthy (chain_id : Z) (w w1 : world)
    (api_base : string) (d : dict) (h : pyval) :
  _get_api_base_url chain_id = inr api_base ->
  make_request (api_base ++ "/healthCheck") None "GET" None w
    = (inr (PDict d), w1) ->
  dict_lookup "healthy" d = Some h ->
  (dict_lookup "status" d = None \/
   (exists s, dict_lookup "status" d = Some (PStr s) /\ lower s <> "ok") ->
   health chain_id w = (inr h, w1) /\
   (h = PInt 1 \/ h = PStr "yes" -> h <> PBool true /\ truthy h = true)) /\
  (forall v,
      dict_lookup "status" d = Some v -> (forall s, v <> PStr s) ->
      health chain_id w =
        (inr (PBool false), logged w1 (LogHealth chain_id AttributeError))).
Proof.
  intros Hbase Hreq Hh. split.
  - intros Hstatus. split.
    + rewrite health_run, Hbase, Hreq, health_verdict_dict. unfold dict_get.
      rewrite Hh. destruct Hstatus as [-> | (s & -> & Hno)]; [reflexivity |].
      apply String.eqb_neq in Hno. now rewrite Hno.
    + intros [-> | ->]; split; first [discriminate | reflexivity].
  - intros v Hv Hnot.
    rewrite health_run, Hbase, Hreq, health_verdict_dict. unfold dict_get.
    rewrite Hv. destruct v; try reflexivity. now destruct (Hnot s).
Qed.

(** ** Further properties of the two lookups *)

Lemma float_of_int_pos_finite (z : Z) (x : float) :
  float_of_int z = inr x -> 0 < z -> exists m e, x = S754_finite false m e.
Proof.
  unfold float_of_int. intros H Hz.
  pose proof (float_of_Z_sign z false ltac:(lia)) as Hs.
  destruct (float_of_Z z false) as [s | s | | s m e]; cbn in Hs;
    try contradiction; try discriminate.
  injection H as <-. subst s.
  destruct (Z.ltb_spec z 0); [lia |]. now exists m, e.
Qed.


(** The transformation of the empty mapping. *)
Lemma to_price_empty (sell_token : string) (amount : Z) (gas_price : option Z)
    (xs : float) :
  float_of_int amount = inr xs ->
  to_price sell_token amount gas_price (PDict []) =
  inr {| provider := PROVIDER_NAME;
         sources := [];
         buy_amount := "0";
         gas := "0";
         sell_amount := str_of_int amount;
         gas_price := gas_price_str gas_price;
         value := if String.eqb (lower sell_token) NATIVE_TOKEN_ADDRESS
                  then str_of_int amount else "0";
         price := if 0 <? amount then py_repr (PFloat (S754_zero false))
                  else "0";
         allowance_target := None |}.
Proof.
  intros Hs. unfold price_response, rbind. cbn [py_get dict_get dict_lookup].
  unfold compute_price, rbind. rewrite Hs.
  cbn [py_float int_literal digits_value digit_of_char option_map].
  change (py_float float_of_literal (PStr "0")) with (@inr exn _ (S754_zero false)).
  cbv beta iota. rewrite (float_of_int_gt0 _ _ Hs).
  destruct (Z.ltb_spec 0 amount) as [Hpos | Hneg].
  - destruct (float_of_int_pos_finite _ _ Hs Hpos) as (m & e & ->).
    reflexivity.
  - reflexivity.
Qed.

Lemma to_quote_empty (amount : Z) (gas_price : option Z) (xs : float) :
  float_of_int amount = inr xs ->
  to_quote amount gas_price (PDict []) =
  inr {| q_sources := [];
         q_buy_amount := "0";
         q_gas := "0";
         q_sell_amount := str_of_int amount;
         q_to := PStr "";
         q_data := PStr "0x";
         q_gas_price := gas_price_str gas_price;
         q_value := "0";
         q_price := if 0 <? amount then py_repr (PFloat (S754_zero false))
                    else "0" |}.
Proof.
  intros Hs. unfold quote_response, rbind. cbn [py_get dict_get dict_lookup].
  unfold compute_price, rbind. rewrite Hs.
  change (py_float float_of_literal (PStr "0")) with (@inr exn _ (S754_zero false)).
  cbv beta iota. rewrite (float_of_int_gt0 _ _ Hs).
  destruct (Z.ltb_spec 0 amount) as [Hpos | Hneg].
  - destruct (float_of_int_pos_finite _ _ Hs Hpos) as (m & e & ->).
    reflexivity.
  - reflexivity.
Qed.

(** X1. An upstream answer without a body is read as the empty mapping,
    before the status is looked at: whatever [raise_for_status] would do,
    [get_swap_price] returns a model with no sources, buy amount and gas
    "0", and price 0.0 (or "0" for a sell amount that is not positive); the
    debug line of the request is all that is logged. *)
Theorem empty_body_gives_zero_price (buy_token sell_token : string)
    (amount chain_id : Z) (gas_price : option Z)
    (slippage_percentage : option float) (w : world)
    (api_base : string) (query : dict) (r : response) (xs : float) :
  _get_api_base_url chain_id = inr api_base ->
  price_query buy_token sell_token amount slippage_percentage = inr query ->
  upstream (the_request (api_base ++ "/route") (Some query)) = Responds r ->
  resp_body r = BodyEmpty ->
  float_of_int amount = inr xs ->
  exists res,
    swap_price buy_token sell_token amount chain_id gas_price
      slippage_percentage w =
      (inr res, answered w (the_request (api_base ++ "/route") (Some query)) r) /\
    sources res = [] /\ buy_amount res = "0" /\ gas res = "0" /\
    price res = (if 0 <? amount then py_repr (PFloat (S754_zero false))
                 else "0").
Proof.
  intros Hbase Hquery Hup Hbody Hs.
  rewrite (swap_price_run _ _ _ _ _ _ _ _ _ Hbase Hquery).
  rewrite make_request_run, Hup, Hbody. cbv beta iota zeta.
  rewrite (to_price_empty _ _ _ _ Hs).
  eexists. split; [reflexivity |]. repeat split; reflexivity.
Qed.

(** X2. On an answer without a body [get_swap_quote] returns a quote that
    cannot be executed: target address "", calldata "0x", value "0" and buy
    amount "0", whatever the status of the answer. *)
Theorem empty_body_gives_empty_quote (buy_token sell_token : string)
    (amount chain_id : Z) (taker : string) (gas_price : option Z)
    (slippage_percentage : option float) (w : world)
    (api_base : string) (query : dict) (r : response) (xs : float) :
  missing (Some taker) = false ->
  _get_api_base_url chain_id = inr api_base ->
  quote_query buy_token sell_token amount taker slippage_percentage
    = inr query ->
  upstream (the_request (api_base ++ "/calldata") (Some query)) = Responds r ->
  resp_body r = BodyEmpty ->
  float_of_int amount = inr xs ->
  exists q,
    swap_quote buy_token sell_token amount chain_id (Some taker) gas_price
      slippage_percentage w =
      (inr q, answered w (the_request (api_base ++ "/calldata") (Some query)) r) /\
    q_to q = PStr "" /\ q_data q = PStr "0x" /\ q_value q = "0" /\
    q_buy_amount q = "0" /\ q_sources q = [].
Proof.
  intros Htaker Hbase Hquery Hup Hbody Hs.
  rewrite (swap_quote_run _ _ _ _ _ _ _ _ _ _ Htaker Hbase Hquery).
  rewrite make_request_run, Hup, Hbody. cbv beta iota zeta.
  rewrite (to_quote_empty _ _ _ Hs).
  eexists. split; [reflexivity |]. repeat split; reflexivity.
Qed.

(** The source tag leaves the fields the classifier reads untouched. *)
Lemma tagged_error_message (status : Z) (d : dict) :
  let e := ClientResponseError status
             (PList [PDict (dict_set "source" (PStr "proxied Fibrous API") d)]) in
  error_message str_exn e =
  inr (dict_get "error" d (dict_get "message" d (PStr (str_exn e)))).
Proof.
  cbv zeta. cbn [error_message]. unfold dict_get.
  rewrite !dict_lookup_set_other by discriminate. reflexivity.
Qed.

(** X3. For an HTTP failure whose body is a JSON object, the text that is
    classified and carried by the raised error is the [error] field of the
    body, else its [message] field, else the text of the exception; the
    raised error names the provider, has the empty URL, keeps the request
    context, and is logged once as a warning. *)
Theorem http_failure_message_priority (buy_token sell_token : string)
    (amount chain_id : Z) (gas_price : option Z)
    (slippage_percentage : option float) (w : world)
    (api_base : string) (query d : dict) (s : Z) (m : string) :
  let e := ClientResponseError (normalize_status s)
             (PList [PDict (dict_set "source" (PStr "proxied Fibrous API") d)]) in
  let kwargs := request_context query sell_token chain_id in
  _get_api_base_url chain_id = inr api_base ->
  price_query buy_token sell_token amount slippage_percentage = inr query ->
  upstream (the_request (api_base ++ "/route") (Some query)) =
    Responds {| resp_body := BodyJson (PDict d);
                resp_raise_for_status := Some s |} ->
  base_handle_exception e kwargs = None ->
  dict_lookup "error" d = Some (PStr m) \/
  (dict_lookup "error" d = None /\ dict_lookup "message" d = Some (PStr m)) \/
  (dict_lookup "error" d = None /\ dict_lookup "message" d = None /\
   m = str_exn e) ->
  exists k,
    classify_message m = inr k /\
    let raised := {| err_kind := k; err_provider := PROVIDER_NAME;
                     err_message := PStr m; err_url := PStr "";
                     err_context := kwargs |} in
    swap_price buy_token sell_token amount chain_id gas_price
      slippage_percentage w =
    (inl (ProviderError raised),
     logged (answered w (the_request (api_base ++ "/route") (Some query))
               {| resp_body := BodyJson (PDict d);
                  resp_raise_for_status := Some s |})
       (LogWarning raised)).
Proof.
  intros e kwargs Hbase Hquery Hup Hshared Hfield.
  assert (Hmsg : error_message str_exn e = inr (PStr m)).
  { unfold e. rewrite tagged_error_message. fold e. unfold dict_get.
    destruct Hfield as [-> | [[-> ->] | (-> & -> & ->)]]; reflexivity. }
  destruct (classify_own e kwargs m
              (answered w (the_request (api_base ++ "/route") (Some query))
                 {| resp_body := BodyJson (PDict d);
                    resp_raise_for_status := Some s |})
              Hshared Hmsg eq_refl) as (k & Hk & _ & Hrun).
  exists k. split; [exact Hk |]. cbv zeta in Hrun |- *.
  rewrite (classifier_receives_normalized_status _ _ _ _ _ _ _ _ _ _ _
             Hbase Hquery Hup).
  unfold bind. fold e kwargs. rewrite Hrun. reflexivity.
Qed.

Lemma scan_patterns_text (msg : string) :
  exists k, scan_patterns FIBROUS_ERRORS (PStr msg) = inr k.
Proof.
  destruct (classify_message_total msg) as (k & Hk & _). now exists k.
Qed.

(** X5. A transformation failure that the shared classifier does not
    recognise never becomes a provider error: [handle_exception] is called
    with a [url] keyword among its keyword arguments and passes [url] again
    to the error class, so the call itself raises ([KeyError] on CPython
    3.11, [TypeError] by the language reference), and that is what
    [get_swap_price] raises; no error or warning record is written. *)
Theorem unrecognised_transform_failure_is_not_classified
    (buy_token sell_token : string)
    (amount chain_id : Z) (gas_price : option Z)
    (slippage_percentage : option float) (w w1 : world)
    (api_base : string) (query : dict) (response : pyval) (e : exn) :
  _get_api_base_url chain_id = inr api_base ->
  price_query buy_token sell_token amount slippage_percentage = inr query ->
  make_request (api_base ++ "/route") (Some query) "GET" None w
    = (inr response, w1) ->
  to_price sell_token amount gas_price response = inl e ->
  is_transform_failure e = true ->
  base_handle_exception e
    (transform_context response "get_swap_price" (api_base ++ "/route")
       query chain_id) = None ->
  exists raised,
    swap_price buy_token sell_token amount chain_id gas_price
      slippage_percentage w = (inl raised, w1) /\
    raised = (if duplicate_keyword_is_KeyError then KeyError else TypeError) /\
    (forall d, raised <> ProviderError d).
Proof.
  intros Hbase Hquery Hreq Ht He Hshared.
  exists (if duplicate_keyword_is_KeyError then KeyError else TypeError).
  split; [| split; [reflexivity |]].
  2: destruct duplicate_keyword_is_KeyError; discriminate.
  rewrite (swap_price_run _ _ _ _ _ _ _ _ _ Hbase Hquery), Hreq, Ht, He.
  unfold bind at 1. unfold handle_exception. rewrite Hshared.
  assert (Hmsg : error_message str_exn e = inr (PStr (str_exn e)))
    by (destruct e; try discriminate He; reflexivity).
  unfold bind, lift. rewrite Hmsg.
  destruct (scan_patterns_text (str_exn e)) as (k & ->).
  reflexivity.
Qed.

(** X6. On a chain id outside the supported set nothing is sent: both
    lookups raise the resolver's [ValueError] and leave the world as it was,
    and [health_check] returns [False] after logging that error. *)
Theorem unsupported_chain_sends_nothing (buy_token sell_token : string)
    (amount chain_id : Z) (taker : string) (gas_price : option Z)
    (slippage_percentage : option float) (w : world) :
  ~ In chain_id supported_chains ->
  missing (Some taker) = false ->
  swap_price buy_token sell_token amount chain_id gas_price
    slippage_percentage w = (inl (unsupported_chain chain_id), w) /\
  swap_quote buy_token sell_token amount chain_id (Some taker) gas_price
    slippage_percentage w = (inl (unsupported_chain chain_id), w) /\
  health chain_id w =
    (inr (PBool false), logged w (LogHealth chain_id (unsupported_chain chain_id))).
Proof.
  intros Hout Htaker.
  assert (Hbase : _get_api_base_url chain_id = inl (unsupported_chain chain_id)).
  { destruct (_get_api_base_url_cases chain_id)
      as [[-> _] | [[-> _] | [[-> _] | [_ H]]]]; [| | | exact H];
      exfalso; apply Hout; simpl; tauto. }
  split; [| split].
  - unfold get_swap_price. rewrite Hbase. reflexivity.
  - destruct taker as [| c t]; [discriminate |].
    unfold get_swap_quote. rewrite Hbase. reflexivity.
  - rewrite health_run, Hbase. reflexivity.
Qed.

(** X10. When the upstream answers with JSON that is not an object (a list,
    a number, a string) under a passing status, both lookups raise
    [AttributeError] unclassified after their one request, with the debug
    line of that request as the only log record, and [health_check] returns
    [False]. *)
Theorem non_object_body_raises_AttributeError (buy_token sell_token : string)
    (amount chain_id : Z) (taker : string) (gas_price : option Z)
    (slippage_percentage : option float) (w : world)
    (api_base : string) (price_params quote_params : dict) (data : pyval) :
  (forall req, upstream req =
     Responds {| resp_body := BodyJson data; resp_raise_for_status := None |}) ->
  (forall d, data <> PDict d) ->
  missing (Some taker) = false ->
  _get_api_base_url chain_id = inr api_base ->
  price_query buy_token sell_token amount slippage_percentage
    = inr price_params ->
  quote_query buy_token sell_token amount taker slippage_percentage
    = inr quote_params ->
  swap_price buy_token sell_token amount chain_id gas_price
    slippage_percentage w =
    (inl AttributeError,
     answered w (the_request (api_base ++ "/route") (Some price_params))
       {| resp_body := BodyJson data; resp_raise_for_status := None |}) /\
  swap_quote buy_token sell_token amount chain_id (Some taker) gas_price
    slippage_percentage w =
    (inl AttributeError,
     answered w (the_request (api_base ++ "/calldata") (Some quote_params))
       {| resp_body := BodyJson data; resp_raise_for_status := None |}) /\
  fst (health chain_id w) = inr (PBool false).
Proof.
  intros Hup Hdata Htaker Hbase Hprice Hquote.
  split; [| split].
  - rewrite (swap_price_run _ _ _ _ _ _ _ _ _ Hbase Hprice).
    rewrite make_request_run, Hup. cbv beta iota zeta. cbn [resp_body resp_raise_for_status].
    destruct data as [| b | z | x | t | l | d];
      first [reflexivity | now destruct (Hdata d)].
  - rewrite (swap_quote_run _ _ _ _ _ _ _ _ _ _ Htaker Hbase Hquote).
    rewrite make_request_run, Hup. cbv beta iota zeta. cbn [resp_body resp_raise_for_status].
    destruct data as [| b | z | x | t | l | d];
      first [reflexivity | now destruct (Hdata d)].
  - rewrite health_run, Hbase, make_request_run, Hup.
    cbv beta iota zeta. cbn [resp_body resp_raise_for_status].
    destruct data as [| b | z | x | t | l | d];
      first [reflexivity | now destruct (Hdata d)].
Qed.

(** X11. When [raise_for_status] raises on JSON that is not an object, the
    executor cannot tag the body and raises [TypeError]; both lookups let it
    through unclassified, with the debug line of the request as the only log
    record, and [health_check] returns [False]. *)
Theorem failed_non_object_body_raises_TypeError (buy_token sell_token : string)
    (amount chain_id : Z) (taker : string) (gas_price : option Z)
    (slippage_percentage : option float) (w : world)
    (api_base : string) (price_params quote_params : dict) (data : pyval)
    (s : Z) :
  (forall req, upstream req =
     Responds {| resp_body := BodyJson data; resp_raise_for_status := Some s |}) ->
  (forall d, data <> PDict d) ->
  missing (Some taker) = false ->
  _get_api_base_url chain_id = inr api_base ->
  price_query buy_token sell_token amount slippage_percentage
    = inr price_params ->
  quote_query buy_token sell_token amount taker slippage_percentage
    = inr quote_params ->
  swap_price buy_token sell_token amount chain_id gas_price
    slippage_percentage w =
    (inl TypeError,
     answered w (the_request (api_base ++ "/route") (Some price_params))
       {| resp_body := BodyJson data; resp_raise_for_status := Some s |}) /\
  swap_quote buy_token sell_token amount chain_id (Some taker) gas_price
    slippage_percentage w =
    (inl TypeError,
     answered w (the_request (api_base ++ "/calldata") (Some quote_params))
       {| resp_body := BodyJson data; resp_raise_for_status := Some s |}) /\
  fst (health chain_id w) = inr (PBool false).
Proof.
  intros Hup Hdata Htaker Hbase Hprice Hquote.
  split; [| split].
  - rewrite (swap_price_run _ _ _ _ _ _ _ _ _ Hbase Hprice).
    rewrite make_request_run, Hup. cbv beta iota zeta. cbn [resp_body resp_raise_for_status].
    destruct data as [| b | z | x | t | l | d];
      first [reflexivity | now destruct (Hdata d)].
  - rewrite (swap_quote_run _ _ _ _ _ _ _ _ _ _ Htaker Hbase Hquote).
    rewrite make_request_run, Hup. cbv beta iota zeta. cbn [resp_body resp_raise_for_status].
    destruct data as [| b | z | x | t | l | d];
      first [reflexivity | now destruct (Hdata d)].
  - rewrite health_run, Hbase, make_request_run, Hup.
    cbv beta iota zeta. cbn [resp_body resp_raise_for_status].
    destruct data as [| b | z | x | t | l | d];
      first [reflexivity | now destruct (Hdata d)].
Qed.

(** ** The request that is sent *)






(** ** Sources *)

Lemma build_sources_steps (steps : list pyval) (srcs : list SwapSources) :
  build_sources new_SwapSources steps = inr srcs ->
  Forall2 (step_source new_SwapSources) steps srcs.
Proof.
  revert srcs. induction steps as [| step rest IH]; intros srcs H.
  - injection H as <-. constructor.
  - cbn [build_sources] in H. unfold rbind in H.
    destruct step as [| | | | | | d]; cbn [py_get] in H; try discriminate.
    destruct (new_SwapSources _ _) as [src |] eqn:Hsrc; [| discriminate].
    destruct (build_sources new_SwapSources rest) as [e | l]; [discriminate |].
    injection H as <-. constructor; [| now apply IH].
    now exists d.
Qed.

Lemma extract_sources_route (d : dict) (srcs : list SwapSources) :
  extract_sources new_SwapSources (PDict d) = inr srcs ->
  (dict_lookup "route" d = None -> srcs = []) /\
  (forall steps, dict_lookup "route" d = Some (PList steps) ->
                 Forall2 (step_source new_SwapSources) steps srcs).
Proof.
  unfold extract_sources, rbind. cbn [py_get]. unfold dict_get.
  intros H. split.
  - intros Hnone. rewrite Hnone in H. cbn in H. now injection H as <-.
  - intros steps Hsteps. rewrite Hsteps in H.
    destruct steps as [| step rest].
    + cbn in H. injection H as <-. constructor.
    + cbn [truthy iterate] in H. now apply build_sources_steps.
Qed.

Lemma price_response_sources (sell_token : string) (amount : Z)
    (gp : option Z) (d : dict) (res : ProviderPriceResponse) :
  to_price sell_token amount gp (PDict d) = inr res ->
  extract_sources new_SwapSources (PDict d) = inr (sources res) /\
  provider res = PROVIDER_NAME /\
  allowance_target res = None /\
  gas res = py_str py_repr (dict_get "estimatedGas" d (PStr "0")) /\
  gas_price res = gas_price_str gp.
Proof.
  unfold price_response, rbind. cbn [py_get].
  destruct (price_of amount _) as [e | p]; [discriminate |].
  destruct (extract_sources new_SwapSources (PDict d)) as [e | srcs];
    [discriminate |].
  intros H. injection H as <-. cbn. repeat split; reflexivity.
Qed.

(** X9. When a price lookup returns, the sources of the model follow the
    [route] of the upstream object step by step, in order and one source per
    step: every step is an object and its source is the validated pair of
    its protocol (default "Unknown") and percent (default 100). Without a
    [route] the model has no sources. *)
Theorem sources_follow_route (buy_token sell_token : string)
    (amount chain_id : Z) (gas_price : option Z)
    (slippage_percentage : option float) (w w' : world)
    (res : ProviderPriceResponse) :
  swap_price buy_token sell_token amount chain_id gas_price
    slippage_percentage w = (inr res, w') ->
  exists api_base query d,
    make_request (api_base ++ "/route") (Some query) "GET" None w
      = (inr (PDict d), w') /\
    (dict_lookup "route" d = None -> sources res = []) /\
    (forall steps,
        dict_lookup "route" d = Some (PList steps) ->
        Forall2 (step_source new_SwapSources) steps (sources res) /\
        List.length (sources res) = List.length steps).
Proof.
  intros H.
  destruct (swap_price_returns _ _ _ _ _ _ _ _ _ H)
    as (api_base & query & response & _ & _ & Hreq & Ht).
  destruct (price_response_inv _ _ _ _ _ Ht) as (d & p & -> & _).
  destruct (price_response_sources _ _ _ _ _ Ht) as (Hsrc & _).
  destruct (extract_sources_route _ _ Hsrc) as [Hnone Hsteps].
  exists api_base, query, d. split; [exact Hreq |]. split; [exact Hnone |].
  intros steps Hs. pose proof (Hsteps steps Hs) as HF.
  split; [exact HF |]. symmetry. exact (Forall2_length HF).
Qed.

(** X14. When a price lookup returns, the model echoes its inputs: the
    provider name of the configuration, no allowance target, the sell amount
    as decimal text that reads back as the integer asked for, and for an
    upstream [outputAmount] or [estimatedGas] that is a string, that very
    string as buy amount or gas, with no numeric conversion. *)
Theorem amounts_are_echoed (buy_token sell_token : string)
    (amount chain_id : Z) (gas_price : option Z)
    (slippage_percentage : option float) (w w' : world)
    (res : ProviderPriceResponse) :
  swap_price buy_token sell_token amount chain_id gas_price
    slippage_percentage w = (inr res, w') ->
  provider res = PROVIDER_NAME /\
  allowance_target res = None /\
  int_literal (sell_amount res) = Some (amount <? 0, Z.abs amount) /\
  exists api_base query d,
    make_request (api_base ++ "/route") (Some query) "GET" None w
      = (inr (PDict d), w') /\
    (forall text, dict_lookup "outputAmount" d = Some (PStr text) ->
                  buy_amount res = text) /\
    (forall z, dict_lookup "outputAmount" d = Some (PInt z) ->
               int_literal (buy_amount res) = Some (z <? 0, Z.abs z)) /\
    (dict_lookup "outputAmount" d = None -> buy_amount res = "0") /\
    (forall text, dict_lookup "estimatedGas" d = Some (PStr text) ->
                  gas res = text) /\
    (dict_lookup "estimatedGas" d = None -> gas res = "0").
Proof.
  intros H.
  destruct (swap_price_returns _ _ _ _ _ _ _ _ _ H)
    as (api_base & query & response & _ & _ & Hreq & Ht).
  destruct (price_response_inv _ _ _ _ _ Ht)
    as (d & p & -> & _ & _ & _ & Hbuy & Hsell).
  destruct (price_response_sources _ _ _ _ _ Ht) as (_ & Hprov & Hallow & Hgas & _).
  split; [exact Hprov |]. split; [exact Hallow |].
  split; [rewrite Hsell; apply int_literal_str_of_int |].
  exists api_base, query, d. split; [exact Hreq |].
  rewrite Hbuy, Hgas. unfold dict_get.
  repeat split.
  - intros text ->. reflexivity.
  - intros z ->. apply int_literal_str_of_int.
  - intros ->. reflexivity.
  - intros text ->. reflexivity.
  - intros ->. reflexivity.
Qed.

(** ** What the lookups never raise, and what they log *)

(** The two ways [handle_exception] ends: it returns a provider error and
    has logged it, or it raises while reading the message or building the
    error and has logged nothing. *)
Lemma classify_cases (e : exn) (kwargs : dict) (w : world) :
  (exists d,
      (classify e kwargs w = (inr (ProviderError d), logged w (LogError d)) \/
       classify e kwargs w = (inr (ProviderError d), logged w (LogWarning d)))) \/
  (exists e',
      classify e kwargs w = (inl e', w) /\
      (e' = IndexError \/ e' = AttributeError \/ e' = TypeError \/
       e' = KeyError)).
Proof.
  unfold handle_exception.
  destruct (base_handle_exception e kwargs) as [d |].
  { left. exists d. now left. }
  unfold bind, lift.
  destruct (error_message str_exn e) as [e1 | msg] eqn:Hm.
  { right. exists e1. split; [reflexivity |]. left.
    destruct e; try discriminate. cbn in Hm.
    destruct message as [| | | | | [| [] ?] |]; try discriminate;
      now injection Hm as <-. }
  destruct (scan_patterns FIBROUS_ERRORS msg) as [e2 | k] eqn:Hs.
  { right. exists e2. split; [reflexivity |]. right. left.
    destruct msg; cbn in Hs; try (now injection Hs as <-).
    destruct (scan_patterns_text s) as [k Hk]. cbn in Hk. congruence. }
  destruct (dict_has "url" kwargs).
  - right. eexists. split; [reflexivity |].
    destruct duplicate_keyword_is_KeyError; auto.
  - left. eexists. right. reflexivity.
Qed.

Lemma reraise_cases {A} (e : exn) (kwargs : dict) (w : world) :
  exists e' w',
    bind (classify e kwargs) (fun exc => @raise A exc) w = (inl e', w') /\
    is_request_failure e' = false /\
    (logs w' = logs w \/
     exists d, e' = ProviderError d /\
               (logs w' = logs w ++ [LogError d] \/
                logs w' = logs w ++ [LogWarning d])%list).
Proof.
  unfold bind, raise.
  destruct (classify_cases e kwargs w)
    as [(d & [-> | ->]) | (e' & -> & He')].
  - eexists. eexists. split; [reflexivity |]. split; [reflexivity |].
    right. exists d. split; [reflexivity |]. now left.
  - eexists. eexists. split; [reflexivity |]. split; [reflexivity |].
    right. exists d. split; [reflexivity |]. now right.
  - exists e', w. split; [reflexivity |].
    split; [destruct He' as [-> | [-> | [-> | ->]]]; reflexivity | now left].
Qed.

Lemma local_error_not_request_failure (e : exn) :
  is_local_error e = true -> is_request_failure e = false.
Proof. destruct e; try discriminate; reflexivity. Qed.

Lemma py_get_error (v : pyval) (k : string) (dflt : pyval) (e : exn) :
  py_get v k dflt = inl e -> is_local_error e = true.
Proof. destruct v; cbn; intros H; try discriminate; now injection H as <-. Qed.

Lemma compute_price_error (amount : Z) (output_amount : pyval) (e : exn) :
  price_of amount output_amount = inl e -> is_local_error e = true.
Proof.
  unfold compute_price, rbind.
  destruct (float_of_int amount) as [e0 | xs] eqn:Hs.
  { intros H. injection H as <-. now rewrite (float_of_int_error _ _ Hs). }
  destruct (py_float float_of_literal output_amount) as [e0 | xb] eqn:Hb.
  { intros H. injection H as <-.
    destruct output_amount as [| b | z | x | s | l | d]; cbn in Hb;
      try discriminate; try (now injection Hb as <-).
    - now rewrite (float_of_int_error _ _ Hb).
    - destruct (int_literal s) as [[neg n] |]; [discriminate |].
      destruct (float_of_literal s); [discriminate |].
      now injection Hb as <-. }
  destruct (float_gt0 xs) eqn:Hgt; [| discriminate].
  rewrite (float_gt0_truediv _ _ Hgt). discriminate.
Qed.

Lemma build_sources_error (steps : list pyval) (e : exn) :
  build_sources new_SwapSources steps = inl e -> is_local_error e = true.
Proof.
  induction steps as [| step rest IH]; cbn [build_sources]; [discriminate |].
  unfold rbind. destruct step; cbn [py_get];
    try (intros H; now injection H as <-).
  destruct (new_SwapSources _ _); [| intros H; now injection H as <-].
  destruct (build_sources new_SwapSources rest) as [e0 | l]; [| discriminate].
  intros H. injection H as <-. now apply IH.
Qed.

Lemma extract_sources_error (response : pyval) (e : exn) :
  extract_sources new_SwapSources response = inl e -> is_local_error e = true.
Proof.
  unfold extract_sources, rbind.
  destruct (py_get response "route" (PList [])) as [e0 | route] eqn:Hr.
  { intros H. injection H as <-. exact (py_get_error _ _ _ _ Hr). }
  destruct (truthy route); [| discriminate].
  destruct (iterate route) as [e0 | steps] eqn:Hit.
  { intros H. injection H as <-.
    destruct route; cbn in Hit; try discriminate; now injection Hit as <-. }
  apply build_sources_error.
Qed.

Lemma to_price_error (sell_token : string) (amount : Z) (gp : option Z)
    (response : pyval) (e : exn) :
  to_price sell_token amount gp response = inl e -> is_local_error e = true.
Proof.
  unfold price_response, rbind.
  destruct response as [| | | | | | d]; cbn [py_get];
    try (intros H; now injection H as <-).
  destruct (price_of amount _) as [e0 | p] eqn:Hp.
  { intros H. injection H as <-. exact (compute_price_error _ _ _ Hp). }
  destruct (extract_sources new_SwapSources (PDict d)) as [e0 | srcs] eqn:Hs;
    [| discriminate].
  intros H. injection H as <-. exact (extract_sources_error _ _ Hs).
Qed.

Lemma to_quote_error (amount : Z) (gp : option Z) (response : pyval) (e : exn) :
  to_quote amount gp response = inl e -> is_local_error e = true.
Proof.
  unfold quote_response, rbind.
  destruct response as [| | | | | | d]; cbn [py_get];
    try (intros H; now injection H as <-).
  destruct (price_of amount _) as [e0 | p] eqn:Hp.
  { intros H. injection H as <-. exact (compute_price_error _ _ _ Hp). }
  destruct (extract_sources new_SwapSources (PDict d)) as [e0 | srcs] eqn:Hs;
    [| discriminate].
  intros H. injection H as <-. exact (extract_sources_error _ _ Hs).
Qed.

Lemma with_slippage_error (slippage_percentage : option float) (q0 : dict)
    (e : exn) :
  with_slippage slippage_percentage q0 = inl e -> is_local_error e = true.
Proof.
  unfold with_slippage, rbind.
  destruct slippage_percentage as [x |]; [| discriminate].
  destruct (float_truthy x); [| discriminate].
  destruct (fmul x (float_of_Z 10000 false)); cbn; intros H;
    try discriminate; now injection H as <-.
Qed.

Lemma resolve_error (chain_id : Z) (e : exn) :
  _get_api_base_url chain_id = inl e -> is_local_error e = true.
Proof.
  destruct (_get_api_base_url_cases chain_id)
    as [[_ ->] | [[_ ->] | [[_ ->] | [_ ->]]]]; try discriminate.
  intros H. now injection H as <-.
Qed.

(** The executor writes the debug line, and only it, once it has a
    response. *)
Lemma make_request_logs (url : string) (params : option dict) (w : world) :
  exists dbg,
    (dbg = [] \/ exists r, dbg = [LogDebug "GET" r]) /\
    logs (snd (make_request url params "GET" None w)) = (logs w ++ dbg)%list.
Proof.
  rewrite make_request_run.
  destruct (upstream _) as [e | r].
  { exists []. split; [now left |]. cbn. now rewrite app_nil_r. }
  exists [LogDebug "GET" r]. split; [right; now exists r |]. cbv zeta.
  destruct (resp_body r) as [| | data | e']; try reflexivity.
  destruct (resp_raise_for_status r); [| reflexivity].
  destruct data; reflexivity.
Qed.

Ltac log_case H :=
  destruct H as [H | (?d & -> & H)];
  [now left
  | right; eexists; split; [reflexivity | rewrite <- !app_assoc in H; exact H]].

Ltac nothing_logged :=
  exists []; split; [now left | left; cbn; now rewrite app_nil_r].

(** How a price lookup ends, with what it raised and what it logged: the
    debug line [dbg] of an answered request, and after it at most the
    provider error it raises. *)
Lemma swap_price_ends (buy_token sell_token : string) (amount chain_id : Z)
    (gas_price : option Z) (slippage_percentage : option float) (w : world) :
  let run := swap_price buy_token sell_token amount chain_id gas_price
               slippage_percentage w in
  (forall e, fst run = inl e -> is_request_failure e = false) /\
  exists dbg,
    (dbg = [] \/ exists r, dbg = [LogDebug "GET" r]) /\
    (logs (snd run) = (logs w ++ dbg)%list \/
     exists d, fst run = inl (ProviderError d) /\
               (logs (snd run) = logs w ++ dbg ++ [LogError d] \/
                logs (snd run) = logs w ++ dbg ++ [LogWarning d])%list).
Proof.
  cbv zeta.
  destruct (_get_api_base_url chain_id) as [e0 | api_base] eqn:Hbase.
  { unfold get_swap_price. rewrite Hbase. cbn. split; [| nothing_logged].
    intros e H. injection H as <-.
    exact (local_error_not_request_failure _ (resolve_error _ _ Hbase)). }
  destruct (price_query buy_token sell_token amount slippage_percentage)
    as [e0 | query] eqn:Hquery.
  { unfold get_swap_price. rewrite Hbase, bind_lift_inr. cbv zeta.
    rewrite Hquery. cbn. split; [| nothing_logged].
    intros e H. injection H as <-.
    exact (local_error_not_request_failure _ (with_slippage_error _ _ _ Hquery)). }
  rewrite (swap_price_run _ _ _ _ _ _ _ _ _ Hbase Hquery).
  destruct (make_request_logs (api_base ++ "/route") (Some query) w)
    as (dbg & Hdbg & Hl).
  destruct (make_request _ _ _ _ w) as [[e0 | response] w1]; cbn [snd] in Hl.
  - destruct (is_request_failure e0) eqn:He0.
    + destruct (reraise_cases (A:=ProviderPriceResponse) e0
                  (request_context query sell_token chain_id) w1)
        as (e' & w' & -> & Hnot & Hlog).
      cbn [fst snd]. rewrite Hl in Hlog.
      split; [| exists dbg; split; [exact Hdbg | log_case Hlog]].
      intros e H. now injection H as <-.
    + cbn [fst snd]. split; [| exists dbg; split; [exact Hdbg | now left]].
      intros e H. now injection H as <-.
  - destruct (to_price sell_token amount gas_price response) as [e0 | res] eqn:Ht.
    + destruct (is_transform_failure e0).
      * destruct (reraise_cases (A:=ProviderPriceResponse) e0
                    (transform_context response "get_swap_price"
                       (api_base ++ "/route") query chain_id) w1)
          as (e' & w' & -> & Hnot & Hlog).
        cbn [fst snd]. rewrite Hl in Hlog.
        split; [| exists dbg; split; [exact Hdbg | log_case Hlog]].
        intros e H. now injection H as <-.
      * cbn [fst snd]. split; [| exists dbg; split; [exact Hdbg | now left]].
        intros e H. injection H as <-.
        exact (local_error_not_request_failure _ (to_price_error _ _ _ _ _ Ht)).
    + cbn [fst snd].
      split; [discriminate | exists dbg; split; [exact Hdbg | now left]].
Qed.

Lemma swap_quote_ends (buy_token sell_token : string) (amount chain_id : Z)
    (taker_address : option string) (gas_price : option Z)
    (slippage_percentage : option float) (w : world) :
  let run := swap_quote buy_token sell_token amount chain_id taker_address
               gas_price slippage_percentage w in
  (forall e, fst run = inl e -> is_request_failure e = false) /\
  exists dbg,
    (dbg = [] \/ exists r, dbg = [LogDebug "GET" r]) /\
    (logs (snd run) = (logs w ++ dbg)%list \/
     exists d, fst run = inl (ProviderError d) /\
               (logs (snd run) = logs w ++ dbg ++ [LogError d] \/
                logs (snd run) = logs w ++ dbg ++ [LogWarning d])%list).
Proof.
  cbv zeta.
  destruct taker_address as [[| c t] |];
    try (cbn; split; [intros e H; now injection H as <- | nothing_logged]).
  set (taker := String c t).
  assert (Hmiss : missing (Some taker) = false) by reflexivity.
  destruct (_get_api_base_url chain_id) as [e0 | api_base] eqn:Hbase.
  { unfold get_swap_quote. cbn [taker]. rewrite Hbase. cbn.
    split; [| nothing_logged]. intros e H. injection H as <-.
    exact (local_error_not_request_failure _ (resolve_error _ _ Hbase)). }
  destruct (quote_query buy_token sell_token amount taker slippage_percentage)
    as [e0 | query] eqn:Hquery.
  { unfold get_swap_quote. cbn [taker]. rewrite Hbase, bind_lift_inr.
    cbv zeta. fold taker. rewrite Hquery. cbn. split; [| nothing_logged].
    intros e H. injection H as <-.
    exact (local_error_not_request_failure _ (with_slippage_error _ _ _ Hquery)). }
  rewrite (swap_quote_run _ _ _ _ _ _ _ _ _ _ Hmiss Hbase Hquery).
  destruct (make_request_logs (api_base ++ "/calldata") (Some query) w)
    as (dbg & Hdbg & Hl).
  destruct (make_request _ _ _ _ w) as [[e0 | response] w1]; cbn [snd] in Hl.
  - destruct (is_request_failure e0) eqn:He0.
    + destruct (reraise_cases (A:=ProviderQuoteResponse) e0
                  (request_context query sell_token chain_id
                     ++ [("wallet", PStr taker)])%list w1)
        as (e' & w' & -> & Hnot & Hlog).
      cbn [fst snd]. rewrite Hl in Hlog.
      split; [| exists dbg; split; [exact Hdbg | log_case Hlog]].
      intros e H. now injection H as <-.
    + cbn [fst snd]. split; [| exists dbg; split; [exact Hdbg | now left]].
      intros e H. now injection H as <-.
  - destruct (to_quote amount gas_price response) as [e0 | res] eqn:Ht.
    + destruct (is_transform_failure e0).
      * destruct (reraise_cases (A:=ProviderQuoteResponse) e0
                    (transform_context response "get_swap_quote"
                       (api_base ++ "/calldata") query chain_id) w1)
          as (e' & w' & -> & Hnot & Hlog).
        cbn [fst snd]. rewrite Hl in Hlog.
        split; [| exists dbg; split; [exact Hdbg | log_case Hlog]].
        intros e H. now injection H as <-.
      * cbn [fst snd]. split; [| exists dbg; split; [exact Hdbg | now left]].
        intros e H. injection H as <-.
        exact (local_error_not_request_failure _ (to_quote_error _ _ _ _ Ht)).
    + cbn [fst snd].
      split; [discriminate | exists dbg; split; [exact Hdbg | now left]].
Qed.

(** X12. Whatever the inputs and whatever the upstream does, neither lookup
    ever raises a [ClientResponseError], a timeout or a server disconnection:
    these three are always replaced at the adapter boundary. *)
Theorem lookups_never_raise_request_failures (buy_token sell_token : string)
    (amount chain_id : Z) (taker_address : option string)
    (gas_price : option Z) (slippage_percentage : option float) (w : world)
    (e : exn) :
  (fst (swap_price buy_token sell_token amount chain_id gas_price
          slippage_percentage w) = inl e ->
   is_request_failure e = false) /\
  (fst (swap_quote buy_token sell_token amount chain_id taker_address
          gas_price slippage_percentage w) = inl e ->
   is_request_failure e = false).
Proof.
  split.
  - apply (proj1 (swap_price_ends buy_token sell_token amount chain_id
                    gas_price slippage_percentage w)).
  - apply (proj1 (swap_quote_ends buy_token sell_token amount chain_id
                    taker_address gas_price slippage_percentage w)).
Qed.

(** X13. Besides the debug line [dbg] that the executor writes once it has
    a response, a lookup writes at most one log record, and only when it
    raises a provider error: the record then holds that very error, at error
    level or at warning level, and comes last. A lookup that returns, or
    raises anything else, writes no error or warning record. *)
Theorem lookups_log_the_raised_error (buy_token sell_token : string)
    (amount chain_id : Z) (taker_address : option string)
    (gas_price : option Z) (slippage_percentage : option float) (w : world) :
  let price_run := swap_price buy_token sell_token amount chain_id gas_price
                     slippage_percentage w in
  let quote_run := swap_quote buy_token sell_token amount chain_id
                     taker_address gas_price slippage_percentage w in
  (exists dbg,
      (dbg = [] \/ exists r, dbg = [LogDebug "GET" r]) /\
      (logs (snd price_run) = (logs w ++ dbg)%list \/
       exists d, fst price_run = inl (ProviderError d) /\
                 (logs (snd price_run) = logs w ++ dbg ++ [LogError d] \/
                  logs (snd price_run) = logs w ++ dbg ++ [LogWarning d])%list)) /\
  (exists dbg,
      (dbg = [] \/ exists r, dbg = [LogDebug "GET" r]) /\
      (logs (snd quote_run) = (logs w ++ dbg)%list \/
       exists d, fst quote_run = inl (ProviderError d) /\
                 (logs (snd quote_run) = logs w ++ dbg ++ [LogError d] \/
                  logs (snd quote_run) = logs w ++ dbg ++ [LogWarning d])%list)).
Proof.
  cbv zeta. split.
  - apply (proj2 (swap_price_ends buy_token sell_token amount chain_id
                    gas_price slippage_percentage w)).
  - apply (proj2 (swap_quote_ends buy_token sell_token amount chain_id
                    taker_address gas_price slippage_percentage w)).
Qed.

(** ** More on prices, classification and probes *)

(** X15. For a sell amount that is zero or negative, a lookup that returns
    gives the price "0": the division is guarded by [sell_amount_float > 0]. *)
Theorem nonpositive_amount_price_is_zero (buy_token sell_token : string)
    (amount chain_id : Z) (taker_address : option string)
    (gas_price : option Z) (slippage_percentage : option float) (w : world) :
  amount <= 0 ->
  (forall res w',
      swap_price buy_token sell_token amount chain_id gas_price
        slippage_percentage w = (inr res, w') ->
      price res = "0") /\
  (forall q w',
      swap_quote buy_token sell_token amount chain_id taker_address gas_price
        slippage_percentage w = (inr q, w') ->
      q_price q = "0").
Proof.
  intros Hle.
  assert (Hp : forall out p, price_of amount out = inr p ->
                             py_str py_repr p = "0").
  { intros out p H.
    destruct (compute_price_inv _ _ _ H) as (xs & xb & _ & _ & ->).
    destruct (Z.ltb_spec 0 amount); [lia | reflexivity]. }
  split.
  - intros res w' H.
    destruct (swap_price_returns _ _ _ _ _ _ _ _ _ H)
      as (api_base & query & response & _ & _ & _ & Ht).
    destruct (price_response_inv _ _ _ _ _ Ht) as (d & p & _ & Hprice & -> & _).
    exact (Hp _ _ Hprice).
  - intros q w' H.
    destruct (swap_quote_returns _ _ _ _ _ _ _ _ _ _ H)
      as (taker & api_base & query & response & _ & _ & _ & _ & Ht).
    destruct (quote_response_inv _ _ _ _ Ht) as (d & p & _ & Hprice & ->).
    exact (Hp _ _ Hprice).
Qed.

(** X16. Whenever the executor got an answer and raises a
    [ClientResponseError], the status of that error lies in 100..599 and its
    message is a one-element list holding the body, an object whose [source]
    is "proxied Fibrous API". *)
Theorem raised_status_in_range (url : string) (params : option dict)
    (r : response) (w w' : world) (status : Z) (message : pyval) :
  upstream (the_request url params) = Responds r ->
  make_request url params "GET" None w
    = (inl (ClientResponseError status message), w') ->
  100 <= status <= 599 /\
  exists d,
    message = PList [PDict d] /\
    dict_lookup "source" d = Some (PStr "proxied Fibrous API").
Proof.
  intros Hup. rewrite make_request_run, Hup. cbv zeta.
  destruct (resp_body r) as [| | data | [| | name]]; try discriminate.
  destruct (resp_raise_for_status r) as [s |]; [| discriminate].
  destruct data; try discriminate.
  intros H. injection H as <- <- _. split.
  - unfold normalize_status.
    destruct (Z.leb_spec 100 s), (Z.ltb_spec s 600); cbn; lia.
  - eexists. split; [reflexivity |]. apply dict_lookup_set_same.
Qed.

(** X17. A slippage that is NaN or infinite stops both lookups before any
    request: [int(...)] raises [ValueError] for NaN and [OverflowError] for
    an infinity, the first [except] clause does not catch them, and the
    world is returned as it was. *)
Theorem non_finite_slippage_fails_before_request
    (buy_token sell_token : string) (amount chain_id : Z) (taker : string)
    (gas_price : option Z) (x : float) (w : world) (api_base : string) :
  _get_api_base_url chain_id = inr api_base ->
  missing (Some taker) = false ->
  x = S754_nan \/ (exists s, x = S754_infinity s) ->
  let e := match x with
           | S754_nan => ValueError "cannot convert float NaN to integer"
           | _ => OverflowError
           end in
  swap_price buy_token sell_token amount chain_id gas_price (Some x) w
    = (inl e, w) /\
  swap_quote buy_token sell_token amount chain_id (Some taker) gas_price
    (Some x) w = (inl e, w).
Proof.
  intros Hbase Htaker Hx e.
  assert (Hs : forall q0, with_slippage (Some x) q0 = inl e).
  { intros q0. unfold e. destruct Hx as [-> | [s ->]]; [reflexivity |].
    destruct s; reflexivity. }
  split.
  - unfold get_swap_price. rewrite Hbase, bind_lift_inr. cbv zeta.
    unfold price_query. rewrite Hs. reflexivity.
  - destruct taker as [| c t]; [discriminate |].
    unfold get_swap_quote. rewrite Hbase, bind_lift_inr. cbv zeta.
    unfold quote_query. rewrite Hs. reflexivity.
Qed.

(** X18. On a supported chain [health_check] sends exactly one request, a
    GET to [<base>/healthCheck] without parameters. Besides the debug line
    of an answered probe it writes at most one record, the error record of
    its [except] clause, and then its result is [False]; an exception of the
    executor and an exception of the verdict are each logged so. *)
Theorem health_check_sends_one_probe (chain_id : Z) (w : world)
    (api_base : string) :
  _get_api_base_url chain_id = inr api_base ->
  let run := health chain_id w in
  let probe := make_request (api_base ++ "/healthCheck") None "GET" None w in
  calls (snd run) =
    (calls w ++ [{| req_method := "get"; req_url := api_base ++ "/healthCheck";
                    req_params := None; req_json := None |}])%list /\
  (exists dbg,
      (dbg = [] \/ exists r, dbg = [LogDebug "GET" r]) /\
      (logs (snd run) = (logs w ++ dbg)%list \/
       exists e, fst run = inr (PBool false) /\
                 logs (snd run) = (logs w ++ dbg ++ [LogHealth chain_id e])%list)) /\
  (forall e, fst probe = inl e ->
             run = (inr (PBool false), logged (snd probe) (LogHealth chain_id e))) /\
  (forall response e,
      fst probe = inr response -> health_verdict response = inl e ->
      run = (inr (PBool false), logged (snd probe) (LogHealth chain_id e))).
Proof.
  intros Hbase. cbv zeta. rewrite health_run, Hbase.
  pose proof (make_request_calls (api_base ++ "/healthCheck") None w) as Hc.
  destruct (make_request_logs (api_base ++ "/healthCheck") None w)
    as (dbg & Hdbg & Hl).
  destruct (make_request _ _ _ _ w) as [[e | response] w1];
    cbn [fst snd] in *.
  - split; [exact Hc |]. split; [| split].
    + exists dbg. split; [exact Hdbg |]. right. exists e.
      split; [reflexivity |]. cbn. rewrite Hl. now rewrite app_assoc.
    + intros e0 H. now injection H as <-.
    + discriminate.
  - destruct (health_verdict response) as [e | v] eqn:Hv; cbn [fst snd].
    + split; [exact Hc |]. split; [| split].
      * exists dbg. split; [exact Hdbg |]. right. exists e.
        split; [reflexivity |]. cbn. rewrite Hl. now rewrite app_assoc.
      * discriminate.
      * intros r e0 Hr He. injection Hr as <-. rewrite Hv in He.
        now injection He as <-.
    + split; [exact Hc |]. split; [| split].
      * exists dbg. split; [exact Hdbg |]. now left.
      * discriminate.
      * intros r e0 Hr He. injection Hr as <-. rewrite Hv in He. discriminate.
Qed.

(** X4. What the shared classifier recognises is raised as it is, on both
    paths of a price lookup: for a failed request and for a failed
    transformation alike the lookup raises the shared classifier's error and
    logs it once at error level, whatever the pattern table would say. *)
Theorem shared_classification_wins (buy_token sell_token : string)
    (amount chain_id : Z) (gas_price : option Z)
    (slippage_percentage : option float) (w w1 : world)
    (api_base : string) (query : dict) (d : provider_error) :
  _get_api_base_url chain_id = inr api_base ->
  price_query buy_token sell_token amount slippage_percentage = inr query ->
  (forall e,
      make_request (api_base ++ "/route") (Some query) "GET" None w
        = (inl e, w1) ->
      is_request_failure e = true ->
      base_handle_exception e (request_context query sell_token chain_id)
        = Some d ->
      swap_price buy_token sell_token amount chain_id gas_price
        slippage_percentage w = (inl (ProviderError d), logged w1 (LogError d))) /\
  (forall response e,
      make_request (api_base ++ "/route") (Some query) "GET" None w
        = (inr response, w1) ->
      to_price sell_token amount gas_price response = inl e ->
      is_transform_failure e = true ->
      base_handle_exception e
        (transform_context response "get_swap_price" (api_base ++ "/route")
           query chain_id) = Some d ->
      swap_price buy_token sell_token amount chain_id gas_price
        slippage_percentage w = (inl (ProviderError d), logged w1 (LogError d))).
Proof.
  intros Hbase Hquery. split.
  - intros e Hreq He Hshared.
    rewrite (swap_price_run _ _ _ _ _ _ _ _ _ Hbase Hquery), Hreq, He.
    unfold bind. now rewrite (classify_shared _ _ _ _ Hshared).
  - intros response e Hreq Ht He Hshared.
    rewrite (swap_price_run _ _ _ _ _ _ _ _ _ Hbase Hquery), Hreq, Ht, He.
    unfold bind. now rewrite (classify_shared _ _ _ _ Hshared).
Qed.

(** X19. When the request of a quote lookup fails and the pattern table
    classifies it, the raised error keeps the whole request context: the
    parameters sent, the sell token as [token_address], the chain id, and
    the taker as [wallet]. *)
Theorem quote_failure_keeps_wallet (buy_token sell_token : string)
    (amount chain_id : Z) (taker : string) (gas_price : option Z)
    (slippage_percentage : option float) (w w1 : world)
    (api_base : string) (query : dict) (e : exn) (msg : string) :
  missing (Some taker) = false ->
  _get_api_base_url chain_id = inr api_base ->
  quote_query buy_token sell_token amount taker slippage_percentage
    = inr query ->
  make_request (api_base ++ "/calldata") (Some query) "GET" None w
    = (inl e, w1) ->
  is_request_failure e = true ->
  base_handle_exception e
    (request_context query sell_token chain_id ++ [("wallet", PStr taker)])%list
    = None ->
  error_message str_exn e = inr (PStr msg) ->
  exists d,
    swap_quote buy_token sell_token amount chain_id (Some taker) gas_price
      slippage_percentage w = (inl (ProviderError d), logged w1 (LogWarning d)) /\
    err_message d = PStr msg /\
    classify_message msg = inr (err_kind d) /\
    dict_lookup "params" (err_context d) = Some (PDict query) /\
    dict_lookup "token_address" (err_context d) = Some (PStr sell_token) /\
    dict_lookup "chain_id" (err_context d) = Some (PInt chain_id) /\
    dict_lookup "wallet" (err_context d) = Some (PStr taker).
Proof.
  intros Htaker Hbase Hquery Hreq He Hshared Hmsg.
  destruct (classify_own e _ msg w1 Hshared Hmsg eq_refl)
    as (k & Hk & _ & Hrun). cbv zeta in Hrun.
  eexists. split.
  - rewrite (swap_quote_run _ _ _ _ _ _ _ _ _ _ Htaker Hbase Hquery), Hreq, He.
    unfold bind. rewrite Hrun. reflexivity.
  - cbn. repeat split; try reflexivity. exact Hk.
Qed.

End Properties.

(** ** Worked examples *)

Lemma make_request_normalizes_status_witness :
  reply error_body (Some 0) (the_request "u" None) =
    Responds {| resp_body := error_body; resp_raise_for_status := Some 0 |} /\
  exists status,
    _make_request (reply error_body (Some 0)) "u" None "GET" None fresh =
      (inl (ClientResponseError status
              (PList [PDict (dict_set "source" (PStr "proxied Fibrous API")
                               [("error", PStr "Insufficient Liquidity for pair")])])),
       replied error_body (Some 0) (the_request "u" None)) /\
    (0 < 100 \/ 599 < 0 -> status = 500) /\
    (100 <= 0 <= 599 -> status = 0).
Proof.
  split; [reflexivity |].
  apply (make_request_normalizes_status (reply error_body (Some 0)) "u" None
           [("error", PStr "Insufficient Liquidity for pair")] 0 fresh).
  reflexivity.
Defined.

(** C9, as stated, fails for an HTTP failure that the session raises itself:
    a redirect loop ends in a [ClientResponseError] of status 0, which
    [_make_request] lets through as it is, and status 0 is what the
    classifier is handed. *)
Lemma session_failure_keeps_status_0 :
  _make_request redirect_loop (FIBROUS_API_BASE ++ "/route")
    (Some (route_params weth usdc 1000000)) "GET" None fresh =
    (inl (ClientResponseError 0 (PStr "")),
     sent fresh (the_request (FIBROUS_API_BASE ++ "/route")
                   (Some (route_params weth usdc 1000000)))) /\
  (0 < 100 \/ 599 < 0) /\ 0 <> 500 /\
  fst (sample_price_with status_probe redirect_loop weth usdc 1000000 8453 None
         None fresh) = inl (ProviderError (status_seen 0)) /\
  status_probe (ClientResponseError 500 (PStr "")) [] = Some (status_seen 500) /\
  status_seen 0 <> status_seen 500.
Proof.
  split; [reflexivity |]. split; [left; lia |]. split; [lia |].
  split; [vm_compute; reflexivity |]. split; [reflexivity | discriminate].
Qed.

Example normalize_status_examples :
  normalize_status 0 = 500 /\ normalize_status 700 = 500 /\
  normalize_status (-1) = 500 /\ normalize_status 404 = 404 /\
  normalize_status 100 = 100 /\ normalize_status 599 = 599 /\
  normalize_status 600 = 500 /\ normalize_status 99 = 500.
Proof. repeat split; reflexivity. Qed.

Lemma quote_requires_taker_witness :
  missing None = true /\
  exists e,
    sample_quote (reply BodyEmpty None) weth usdc 1000000 8453 None None None
      fresh = (inl e, fresh) /\
    e = ValueError "taker_address is required for Fibrous quote" /\
    (forall d, e <> ProviderError d).
Proof.
  split; [reflexivity |].
  apply (quote_requires_taker sample_provider no_shared_match sample_str_exn
           sample_repr no_other_literal accept_source (reply BodyEmpty None)
           sample_clash weth usdc 1000000 8453 None None None fresh).
  reflexivity.
Defined.


Lemma resolve_supported_or_ValueError_witness :
  In 534352 supported_chains /\ FIBROUS_API_SCROLL <> "" /\
  (forall c, _get_api_base_url c = inr FIBROUS_API_SCROLL -> c = 534352).
Proof. exact (resolve_supported_or_ValueError 534352). Defined.

(** C3, as stated, fails at chain id 1: the exception raised is a builtin
    [ValueError], the class [get_swap_quote] raises on a supported chain for
    a missing taker address, so its class does not identify the failure. *)
Lemma unsupported_chain_is_plain_ValueError :
  exists e e',
    _get_api_base_url 1 = inl e /\
    e = ValueError "Fibrous does not support chain_id 1" /\
    is_builtin_exception e = true /\
    fst (sample_quote (reply BodyEmpty None) weth usdc 1000000 8453 None
           None None fresh) = inl e' /\
    same_class e e' = true.
Proof.
  exists (ValueError "Fibrous does not support chain_id 1"),
         (ValueError "taker_address is required for Fibrous quote").
  repeat split; reflexivity.
Qed.

(** The end-to-end example: one route step, price 2.0. *)
Example price_end_to_end :
  exists res w',
    sample_price (reply route_body None) weth usdc 1000000 8453 None None fresh
      = (inr res, w') /\
    buy_amount res = "2000000" /\
    sources res = [{| name := PStr "UniV3"; proportion := PInt 100 |}] /\
    price res = sample_repr (PFloat (S754_finite false 4503599627370496 (-51))) /\
    (exists q, SF2Q (S754_finite false 4503599627370496 (-51)) = Some q /\
               (q == 2)%Q).
Proof.
  eexists. eexists. split; [vm_compute; reflexivity |].
  repeat split; try reflexivity.
  eexists. split; reflexivity.
Qed.



(** C2, as stated, fails for a body that is not JSON: the decoder's own
    exception leaves [get_swap_price] unclassified, and the log holds the
    debug line of the request only. *)
Lemma unparseable_body_escapes :
  exists w',
    sample_price (reply BodyInvalid None) weth usdc 1000000 8453 None None fresh
      = (inl JSONDecodeError, w') /\
    (forall d, JSONDecodeError <> ProviderError d) /\
    logs w' = [LogDebug "GET" {| resp_body := BodyInvalid;
                                 resp_raise_for_status := None |}].
Proof.
  eexists. split; [vm_compute; reflexivity |].
  split; [discriminate | reflexivity].
Qed.

Lemma request_failures_are_classified_witness :
  is_request_failure tagged_error = true /\
  exists d l,
    sample_price (reply error_body (Some 503)) weth usdc 1000000 8453 None None
      fresh =
    (inl (ProviderError d),
     logged (replied error_body (Some 503)
               (the_request (FIBROUS_API_BASE ++ "/route")
                  (Some (route_params weth usdc 1000000)))) l) /\
    err_kind d = InsufficientLiquidityError /\ l = LogWarning d.
Proof.
  split; [reflexivity |].
  destruct (request_failures_are_classified sample_provider sample_native
              no_shared_match sample_str_exn sample_repr no_other_literal
              accept_source (reply error_body (Some 503)) sample_clash
              weth usdc 1000000 8453 None None fresh
              (replied error_body (Some 503)
                 (the_request (FIBROUS_API_BASE ++ "/route")
                    (Some (route_params weth usdc 1000000))))
              FIBROUS_API_BASE (route_params weth usdc 1000000) tagged_error
              eq_refl eq_refl eq_refl eq_refl
              (fun _ => ex_intro _ "Insufficient Liquidity for pair" eq_refl))
    as (d & l & Hrun & [[Hshared _] | (_ & Hl & _ & msg & Hmsg & _ & Hk)]).
  - discriminate Hshared.
  - exists d, l. split; [exact Hrun |]. split; [| exact Hl].
    injection Hmsg as <-.
    change (@inr exn _ InsufficientLiquidityError = inr (err_kind d)) in Hk.
    injection Hk as Hk. now symmetry.
Defined.

Lemma native_token_value_witness :
  lower sample_native = sample_native /\
  exists res w',
    sample_price (reply route_body None) weth native_upper 1000000 8453 None
      None fresh = (inr res, w') /\
    value res = "1000000".
Proof.
  split; [reflexivity |].
  destruct (sample_price (reply route_body None) weth native_upper 1000000 8453
              None None fresh) as [[e | res] w'] eqn:Hrun;
    [vm_compute in Hrun; discriminate |].
  exists res, w'. split; [reflexivity |].
  exact (proj1 (native_token_value sample_provider sample_native
                  no_shared_match sample_str_exn sample_repr no_other_literal
                  accept_source (reply route_body None) sample_clash
                  weth native_upper 1000000 8453 None None fresh w' res
                  eq_refl Hrun) eq_refl).
Defined.

Lemma slippage_basis_points_witness :
  (forall s, slippage_0_015 <> S754_zero s) /\
  calls (snd (sample_price (reply route_body None) weth usdc 1000000 8453 None
                (Some slippage_0_015) fresh)) =
  [the_request (FIBROUS_API_BASE ++ "/route")
     (Some (route_params weth usdc 1000000 ++ [("slippage", PInt 150)])%list)] /\
  calls (snd (sample_quote (reply route_body None) weth usdc 1000000 8453
                (Some weth) None (Some slippage_0_015) fresh)) =
  [the_request (FIBROUS_API_BASE ++ "/calldata")
     (Some (calldata_params weth usdc 1000000 weth
              ++ [("slippage", PInt 150)])%list)] /\
  calls (snd (sample_price (reply route_body None) weth usdc 1000000 8453 None
                (Some (S754_zero false)) fresh)) =
  [the_request (FIBROUS_API_BASE ++ "/route")
     (Some [("tokenInAddress", PStr usdc); ("tokenOutAddress", PStr weth);
            ("amount", PStr "1000000")])] /\
  calls (snd (sample_quote (reply route_body None) weth usdc 1000000 8453
                (Some weth) None (Some (S754_zero true)) fresh)) =
  [the_request (FIBROUS_API_BASE ++ "/calldata")
     (Some [("tokenInAddress", PStr usdc); ("tokenOutAddress", PStr weth);
            ("amount", PStr "1000000"); ("userAddress", PStr weth)])] /\
  calls (snd (sample_price (reply route_body None) weth usdc 1000000 8453 None
                None fresh)) =
  [the_request (FIBROUS_API_BASE ++ "/route")
     (Some [("tokenInAddress", PStr usdc); ("tokenOutAddress", PStr weth);
            ("amount", PStr "1000000")])].
Proof.
  assert (Hnz : forall s, slippage_0_015 <> S754_zero s) by discriminate.
  pose (at_slippage := fun slippage =>
    slippage_basis_points sample_provider sample_native no_shared_match
      sample_str_exn sample_repr no_other_literal accept_source
      (reply route_body None) sample_clash weth usdc 1000000 8453 weth None
      slippage fresh FIBROUS_API_BASE eq_refl eq_refl).
  split; [exact Hnz |].
  destruct (proj1 (proj2 (at_slippage (Some slippage_0_015)) slippage_0_015
                     eq_refl Hnz)
              (5277655813324800 # 35184372088832)%Q eq_refl) as [Hp Hq].
  split; [exact Hp |]. split; [exact Hq |].
  split; [exact (proj1 (proj1 (at_slippage (Some (S754_zero false)))
                          (or_intror (ex_intro _ false eq_refl)))) |].
  split; [exact (proj1 (proj2 (proj1 (at_slippage (Some (S754_zero true)))
                                 (or_intror (ex_intro _ true eq_refl))))) |].
  exact (proj1 (proj1 (at_slippage None) (or_introl eq_refl))).
Defined.

(** [0.015] is the float nearest to 15/1000: the error is below half a unit
    in the last place, 2^-60. *)
Example slippage_0_015_nearest :
  exists q, SF2Q slippage_0_015 = Some q /\
            (q - (15 # 1000) <= 1 # Pos.pow 2 60)%Q /\
            ((15 # 1000) - q <= 1 # Pos.pow 2 60)%Q.
Proof.
  eexists. split; [reflexivity |]. split; vm_compute; discriminate.
Qed.

(** C6, as stated, fails for a slippage written [0.0003], three basis
    points: the float nearest to 3/10000 (within half a unit in the last
    place, 2^-65) times 10000.0 is the float 2.9999999999999996, and the
    request carries [slippage = 2]. *)
Lemma slippage_truncates_rounded_product :
  (exists q, SF2Q slippage_0_0003 = Some q /\
             (q - (3 # 10000) <= 1 # Pos.pow 2 65)%Q /\
             ((3 # 10000) - q <= 1 # Pos.pow 2 65)%Q) /\
  (exists y, SF2Q (fmul slippage_0_0003 (float_of_Z 10000 false)) = Some y /\
             (y < 3)%Q /\ (3 - y <= 1 # Pos.pow 2 50)%Q) /\
  Z.quot (Qnum ((3 # 10000) * 10000)) (Zpos (Qden ((3 # 10000) * 10000))) = 3 /\
  calls (snd (sample_price (reply route_body None) weth usdc 1000000 8453 None
                (Some slippage_0_0003) fresh)) =
  [the_request (FIBROUS_API_BASE ++ "/route")
     (Some [("tokenInAddress", PStr usdc); ("tokenOutAddress", PStr weth);
            ("amount", PStr "1000000"); ("slippage", PInt 2)])] /\
  calls (snd (sample_quote (reply route_body None) weth usdc 1000000 8453
                (Some weth) None (Some slippage_0_0003) fresh)) =
  [the_request (FIBROUS_API_BASE ++ "/calldata")
     (Some [("tokenInAddress", PStr usdc); ("tokenOutAddress", PStr weth);
            ("amount", PStr "1000000"); ("userAddress", PStr weth);
            ("slippage", PInt 2)])].
Proof.
  split.
  { eexists. split; [reflexivity |]. split; vm_compute; discriminate. }
  split.
  { eexists. split; [vm_compute; reflexivity |].
    split; [vm_compute; reflexivity | vm_compute; discriminate]. }
  split; [reflexivity |]. split; vm_compute; reflexivity.
Qed.

(** C8, as stated, fails for the body [{"status": 1, "healthy": true}]: its
    [healthy] field is truthy and the result is [False]. *)
Lemma health_false_with_healthy_true :
  exists w',
    health_check (reply unhealthy_status_body None) 8453 fresh
      = (inr (PBool false), w') /\
    truthy (dict_get "healthy" [("status", PInt 1); ("healthy", PBool true)]
              (PBool false)) = true.
Proof.
  eexists. split; [vm_compute; reflexivity | reflexivity].
Qed.

Lemma health_check_never_raises_witness :
  exists v w',
    health_check (reply (BodyJson (PDict [("status", PStr "OK")])) None) 8453
      fresh = (inr v, w') /\
    truthy v = true.
Proof.
  destruct (health_check_never_raises
              (reply (BodyJson (PDict [("status", PStr "OK")])) None) 8453 fresh)
    as (v & w' & Hrun & _ & _ & _ & Hdict).
  exists v, w'. split; [exact Hrun |].
  destruct (Hdict FIBROUS_API_BASE [("status", PStr "OK")]
              (replied (BodyJson (PDict [("status", PStr "OK")])) None
                 (the_request (FIBROUS_API_BASE ++ "/healthCheck") None))
              eq_refl eq_refl) as [_ Hiff].
  apply Hiff.
  - right. now exists "OK".
  - left. now exists "OK".
Defined.

Example health_true_examples :
  fst (health_check (reply (BodyJson (PDict [("status", PStr "OK")])) None)
         8453 fresh) = inr (PBool true) /\
  fst (health_check (reply (BodyJson (PDict [("healthy", PBool true)])) None)
         8453 fresh) = inr (PBool true) /\
  fst (health_check (reply (BodyJson (PDict [("healthy", PBool false)])) None)
         8453 fresh) = inr (PBool false) /\
  fst (health_check (reply (BodyJson (PDict [("version", PStr "1")])) None)
         8453 fresh) = inr (PBool false) /\
  fst (health_check (reply BodyInvalid None) 8453 fresh) = inr (PBool false) /\
  fst (health_check (fun _ => Fails TimeoutError) 8453 fresh)
    = inr (PBool false).
Proof. repeat split; reflexivity. Qed.

(** C10, as stated, fails for the bodies [{"status": 1, "healthy": "yes"}]
    and [{"status": null, "healthy": 1}]: each has a status that is not "ok"
    and a truthy [healthy] entry, and the result is [False], not the value
    of that entry. *)
Lemma non_text_status_hides_healthy :
  dict_lookup "status" numeric_status_body = Some (PInt 1) /\
  dict_lookup "healthy" numeric_status_body = Some (PStr "yes") /\
  fst (health_check (reply (BodyJson (PDict numeric_status_body)) None) 8453
         fresh) = inr (PBool false) /\
  PBool false <> PStr "yes" /\
  dict_lookup "status" null_status_body = Some PNone /\
  dict_lookup "healthy" null_status_body = Some (PInt 1) /\
  fst (health_check (reply (BodyJson (PDict null_status_body)) None) 8453
         fresh) = inr (PBool false) /\
  PBool false <> PInt 1 /\
  logs (snd (health_check (reply (BodyJson (PDict numeric_status_body)) None)
               8453 fresh)) =
    [LogDebug "GET" {| resp_body := BodyJson (PDict numeric_status_body);
                       resp_raise_for_status := None |};
     LogHealth 8453 AttributeError].
Proof. repeat split; try reflexivity; discriminate. Qed.

Lemma health_check_returns_raw_healthy_witness :
  dict_lookup "status" degraded_body = Some (PStr "degraded") /\
  lower "degraded" <> "ok" /\
  dict_lookup "healthy" degraded_body = Some (PInt 1) /\
  health_check (reply (BodyJson (PDict degraded_body)) None) 8453 fresh
    = (inr (PInt 1),
       replied (BodyJson (PDict degraded_body)) None
         (the_request (FIBROUS_API_BASE ++ "/healthCheck") None)) /\
  PInt 1 <> PBool true.
Proof.
  assert (Hno : lower "degraded" <> "ok") by discriminate.
  split; [reflexivity |]. split; [exact Hno |]. split; [reflexivity |].
  destruct (proj1 (health_check_returns_raw_healthy
                     (reply (BodyJson (PDict degraded_body)) None) 8453 fresh
                     (replied (BodyJson (PDict degraded_body)) None
                        (the_request (FIBROUS_API_BASE ++ "/healthCheck") None))
                     FIBROUS_API_BASE degraded_body (PInt 1)
                     eq_refl eq_refl eq_refl)
              (or_intror (ex_intro _ "degraded" (conj eq_refl Hno))))
    as [Hrun Hraw].
  split; [exact Hrun |]. apply Hraw. now left.
Defined.

Example health_check_returns_text :
  fst (health_check (reply (BodyJson (PDict [("healthy", PStr "yes")])) None)
         8453 fresh) = inr (PStr "yes") /\
  fst (health_check (reply (BodyJson (PDict [("healthy", PInt 1)])) None)
         8453 fresh) = inr (PInt 1).
Proof. split; reflexivity. Qed.

(** ** Worked examples of the further properties *)

Lemma empty_body_gives_zero_price_witness :
  exists res,
    sample_price (reply BodyEmpty (Some 500)) weth usdc 1000000 8453 None None
      fresh =
      (inr res, replied BodyEmpty (Some 500)
                  (the_request (FIBROUS_API_BASE ++ "/route")
                     (Some (route_params weth usdc 1000000)))) /\
    sources res = [] /\ buy_amount res = "0" /\ gas res = "0" /\
    price res = sample_repr (PFloat (S754_zero false)).
Proof.
  unfold sample_price, replied.
  eapply (empty_body_gives_zero_price sample_provider sample_native
            no_shared_match sample_str_exn sample_repr no_other_literal
            accept_source (reply BodyEmpty (Some 500)) sample_clash
            weth usdc 1000000 8453 None None fresh FIBROUS_API_BASE
            (route_params weth usdc 1000000)
            {| resp_body := BodyEmpty; resp_raise_for_status := Some 500 |});
    reflexivity.
Defined.

(** The world after that lookup: one request, and the debug line of it. *)
Example empty_body_world :
  replied BodyEmpty (Some 500)
    (the_request (FIBROUS_API_BASE ++ "/route")
       (Some (route_params weth usdc 1000000))) =
  {| calls := [the_request (FIBROUS_API_BASE ++ "/route")
                 (Some (route_params weth usdc 1000000))];
     logs := [LogDebug "GET" {| resp_body := BodyEmpty;
                                resp_raise_for_status := Some 500 |}] |}.
Proof. reflexivity. Qed.

Lemma empty_body_gives_empty_quote_witness :
  exists q,
    sample_quote (reply BodyEmpty (Some 500)) weth usdc 1000000 8453
      (Some weth) None None fresh =
      (inr q, replied BodyEmpty (Some 500)
                (the_request (FIBROUS_API_BASE ++ "/calldata")
                   (Some (calldata_params weth usdc 1000000 weth)))) /\
    q_to q = PStr "" /\ q_data q = PStr "0x" /\ q_value q = "0" /\
    q_buy_amount q = "0" /\ q_sources q = [].
Proof.
  unfold sample_quote, replied.
  eapply (empty_body_gives_empty_quote sample_provider no_shared_match
            sample_str_exn sample_repr no_other_literal accept_source
            (reply BodyEmpty (Some 500)) sample_clash weth usdc 1000000 8453
            weth None None fresh FIBROUS_API_BASE
            (calldata_params weth usdc 1000000 weth)
            {| resp_body := BodyEmpty; resp_raise_for_status := Some 500 |});
    reflexivity.
Defined.

Lemma http_failure_message_priority_witness :
  exists k,
    classify_message "Insufficient Liquidity for pair" = inr k /\
    sample_price (reply error_body (Some 503)) weth usdc 1000000 8453 None None
      fresh =
    (inl (ProviderError
            {| err_kind := k; err_provider := sample_provider;
               err_message := PStr "Insufficient Liquidity for pair";
               err_url := PStr "";
               err_context :=
                 request_context (route_params weth usdc 1000000) usdc 8453 |}),
     logged (replied error_body (Some 503)
               (the_request (FIBROUS_API_BASE ++ "/route")
                  (Some (route_params weth usdc 1000000))))
       (LogWarning
          {| err_kind := k; err_provider := sample_provider;
             err_message := PStr "Insufficient Liquidity for pair";
             err_url := PStr "";
             err_context :=
               request_context (route_params weth usdc 1000000) usdc 8453 |})).
Proof.
  exact (http_failure_message_priority sample_provider sample_native
           no_shared_match sample_str_exn sample_repr no_other_literal
           accept_source (reply error_body (Some 503)) sample_clash
           weth usdc 1000000 8453
           None None fresh FIBROUS_API_BASE (route_params weth usdc 1000000)
           [("error", PStr "Insufficient Liquidity for pair")] 503
           "Insufficient Liquidity for pair"
           eq_refl eq_refl eq_refl eq_refl (or_introl eq_refl)).
Defined.

Lemma shared_classification_wins_witness :
  sample_price_with timeout_shared times_out weth usdc 1000000 8453 None None
    fresh =
  (inl (ProviderError timeout_error),
   logged (sent fresh (the_request (FIBROUS_API_BASE ++ "/route")
                         (Some (route_params weth usdc 1000000))))
     (LogError timeout_error)).
Proof.
  exact (proj1 (shared_classification_wins sample_provider sample_native
                  timeout_shared sample_str_exn sample_repr no_other_literal
                  accept_source times_out sample_clash
                  weth usdc 1000000 8453 None None fresh
                  (sent fresh (the_request (FIBROUS_API_BASE ++ "/route")
                                 (Some (route_params weth usdc 1000000))))
                  FIBROUS_API_BASE (route_params weth usdc 1000000)
                  timeout_error eq_refl eq_refl)
           TimeoutError eq_refl eq_refl eq_refl).
Defined.

Lemma unrecognised_transform_failure_is_not_classified_witness :
  exists raised,
    sample_price (reply garbled_body None) weth usdc 1000000 8453 None None
      fresh =
      (inl raised,
       replied garbled_body None
         (the_request (FIBROUS_API_BASE ++ "/route")
            (Some (route_params weth usdc 1000000)))) /\
    raised = KeyError /\
    (forall d, raised <> ProviderError d).
Proof.
  exact (unrecognised_transform_failure_is_not_classified sample_provider
           sample_native no_shared_match sample_str_exn sample_repr
           no_other_literal accept_source (reply garbled_body None)
           sample_clash weth usdc 1000000 8453 None None fresh
           (replied garbled_body None
              (the_request (FIBROUS_API_BASE ++ "/route")
                 (Some (route_params weth usdc 1000000))))
           FIBROUS_API_BASE (route_params weth usdc 1000000)
           (PDict [("outputAmount", PStr "abc")])
           (ValueError "could not convert string to float")
           eq_refl eq_refl eq_refl eq_refl eq_refl eq_refl).
Defined.

(** On an interpreter that reports the repeated keyword as the language
    reference says, the same lookup ends in [TypeError]. *)
Example transform_failure_by_the_reference :
  fst (get_swap_price sample_provider sample_native no_shared_match
         sample_str_exn sample_repr no_other_literal accept_source
         (reply garbled_body None) false weth usdc 1000000 8453 None None
         fresh) = inl TypeError.
Proof. vm_compute. reflexivity. Qed.

Lemma unsupported_chain_sends_nothing_witness :
  sample_price (reply route_body None) weth usdc 1000000 1 None None fresh
    = (inl (unsupported_chain 1), fresh) /\
  sample_quote (reply route_body None) weth usdc 1000000 1 (Some weth) None
    None fresh = (inl (unsupported_chain 1), fresh) /\
  health_check (reply route_body None) 1 fresh =
    (inr (PBool false), logged fresh (LogHealth 1 (unsupported_chain 1))).
Proof.
  apply (unsupported_chain_sends_nothing sample_provider sample_native
           no_shared_match sample_str_exn sample_repr no_other_literal
           accept_source (reply route_body None) sample_clash
           weth usdc 1000000 1 weth None None fresh).
  - simpl. intros [H | [H | [H | []]]]; discriminate.
  - reflexivity.
Defined.



Lemma sources_follow_route_witness :
  exists res w',
    sample_price (reply route_body None) weth usdc 1000000 8453 None None fresh
      = (inr res, w') /\
    List.length (sources res) = 1%nat.
Proof.
  destruct (sample_price (reply route_body None) weth usdc 1000000 8453 None
              None fresh) as [[e | res] w'] eqn:Hrun;
    [vm_compute in Hrun; discriminate |].
  exists res, w'. split; [reflexivity |].
  destruct (sources_follow_route sample_provider sample_native no_shared_match
              sample_str_exn sample_repr no_other_literal accept_source
              (reply route_body None) sample_clash
              weth usdc 1000000 8453 None None fresh w'
              res Hrun) as (api_base & query & d & Hreq & _ & Hsteps).
  assert (Hd : d = [("outputAmount", PStr "2000000");
                    ("estimatedGas", PStr "150000");
                    ("route", PList [PDict [("protocol", PStr "UniV3");
                                            ("percent", PInt 100)]])]).
  { rewrite make_request_run in Hreq. cbn in Hreq. now injection Hreq as <- _. }
  subst d. exact (proj2 (Hsteps _ eq_refl)).
Defined.

Lemma amounts_are_echoed_witness :
  exists res w',
    sample_price (reply large_body None) weth usdc large_amount 8453 None None
      fresh = (inr res, w') /\
    provider res = sample_provider /\
    int_literal (sell_amount res) = Some (false, large_amount).
Proof.
  destruct (sample_price (reply large_body None) weth usdc large_amount 8453
              None None fresh) as [[e | res] w'] eqn:Hrun;
    [vm_compute in Hrun; discriminate |].
  exists res, w'. split; [reflexivity |].
  destruct (amounts_are_echoed sample_provider sample_native no_shared_match
              sample_str_exn sample_repr no_other_literal accept_source
              (reply large_body None) sample_clash
              weth usdc large_amount 8453 None None
              fresh w' res Hrun) as (Hprov & _ & Hsell & _).
  split; [exact Hprov | exact Hsell].
Defined.

Lemma non_object_body_raises_AttributeError_witness :
  fst (sample_price (reply (BodyJson (PList [])) None) weth usdc 1000000 8453
         None None fresh) = inl AttributeError /\
  fst (health_check (reply (BodyJson (PList [])) None) 8453 fresh)
    = inr (PBool false).
Proof.
  destruct (non_object_body_raises_AttributeError sample_provider sample_native
              no_shared_match sample_str_exn sample_repr no_other_literal
              accept_source (reply (BodyJson (PList [])) None) sample_clash
              weth usdc 1000000 8453 weth None None fresh FIBROUS_API_BASE
              (route_params weth usdc 1000000)
              (calldata_params weth usdc 1000000 weth) (PList [])
              (fun _ => eq_refl) ltac:(discriminate)
              eq_refl eq_refl eq_refl eq_refl) as (Hp & _ & Hh).
  split; [unfold sample_price; now rewrite Hp | exact Hh].
Defined.

Lemma failed_non_object_body_raises_TypeError_witness :
  fst (sample_price (reply (BodyJson (PStr "Bad Gateway")) (Some 502))
         weth usdc 1000000 8453 None None fresh) = inl TypeError /\
  fst (health_check (reply (BodyJson (PStr "Bad Gateway")) (Some 502)) 8453
         fresh) = inr (PBool false).
Proof.
  destruct (failed_non_object_body_raises_TypeError sample_provider
              sample_native no_shared_match sample_str_exn sample_repr
              no_other_literal accept_source
              (reply (BodyJson (PStr "Bad Gateway")) (Some 502)) sample_clash
              weth usdc 1000000 8453 weth None None fresh FIBROUS_API_BASE
              (route_params weth usdc 1000000)
              (calldata_params weth usdc 1000000 weth) (PStr "Bad Gateway") 502
              (fun _ => eq_refl) ltac:(discriminate)
              eq_refl eq_refl eq_refl eq_refl) as (Hp & _ & Hh).
  split; [unfold sample_price; now rewrite Hp | exact Hh].
Defined.

Lemma nonpositive_amount_price_is_zero_witness :
  0 <= 0 /\
  exists res w',
    sample_price (reply route_body None) weth usdc 0 8453 None None fresh
      = (inr res, w') /\
    price res = "0".
Proof.
  split; [lia |].
  destruct (sample_price (reply route_body None) weth usdc 0 8453 None None
              fresh) as [[e | res] w'] eqn:Hrun;
    [vm_compute in Hrun; discriminate |].
  exists res, w'. split; [reflexivity |].
  exact (proj1 (nonpositive_amount_price_is_zero sample_provider sample_native
                  no_shared_match sample_str_exn sample_repr no_other_literal
                  accept_source (reply route_body None) sample_clash
                  weth usdc 0 8453 None
                  None None fresh ltac:(lia)) res w' Hrun).
Defined.

Lemma raised_status_in_range_witness :
  exists status message w',
    _make_request (reply error_body (Some 0)) "u" None "GET" None fresh
      = (inl (ClientResponseError status message), w') /\
    100 <= status <= 599.
Proof.
  destruct (_make_request (reply error_body (Some 0)) "u" None "GET" None fresh)
    as [[[] | v] w'] eqn:Hrun; try (vm_compute in Hrun; discriminate).
  exists status, message, w'. split; [reflexivity |].
  exact (proj1 (raised_status_in_range (reply error_body (Some 0)) "u" None
                  {| resp_body := error_body; resp_raise_for_status := Some 0 |}
                  fresh w' status message eq_refl Hrun)).
Defined.

Lemma non_finite_slippage_fails_before_request_witness :
  sample_price (reply route_body None) weth usdc 1000000 8453 None
    (Some S754_nan) fresh =
  (inl (ValueError "cannot convert float NaN to integer"), fresh) /\
  sample_quote (reply route_body None) weth usdc 1000000 8453 (Some weth) None
    (Some S754_nan) fresh =
  (inl (ValueError "cannot convert float NaN to integer"), fresh).
Proof.
  exact (non_finite_slippage_fails_before_request sample_provider sample_native
           no_shared_match sample_str_exn sample_repr no_other_literal
           accept_source (reply route_body None) sample_clash
           weth usdc 1000000 8453 weth
           None S754_nan fresh FIBROUS_API_BASE eq_refl eq_refl
           (or_introl eq_refl)).
Defined.

Lemma health_check_sends_one_probe_witness :
  calls (snd (health_check (reply BodyInvalid None) 8453 fresh)) =
  [{| req_method := "get";
      req_url := "https://api.fibrous.finance/base/healthCheck";
      req_params := None; req_json := None |}] /\
  health_check (reply BodyInvalid None) 8453 fresh =
  (inr (PBool false),
   logged (replied BodyInvalid None
             (the_request (FIBROUS_API_BASE ++ "/healthCheck") None))
     (LogHealth 8453 JSONDecodeError)).
Proof.
  destruct (health_check_sends_one_probe (reply BodyInvalid None) 8453 fresh
              FIBROUS_API_BASE eq_refl) as (Hcalls & _ & Hraised & _).
  split; [exact Hcalls |].
  exact (Hraised JSONDecodeError eq_refl).
Defined.

Lemma quote_failure_keeps_wallet_witness :
  exists d,
    sample_quote (reply error_body (Some 503)) weth usdc 1000000 8453
      (Some weth) None None fresh =
    (inl (ProviderError d),
     logged (replied error_body (Some 503)
               (the_request (FIBROUS_API_BASE ++ "/calldata")
                  (Some (calldata_params weth usdc 1000000 weth))))
       (LogWarning d)) /\
    dict_lookup "wallet" (err_context d) = Some (PStr weth).
Proof.
  destruct (quote_failure_keeps_wallet sample_provider no_shared_match
              sample_str_exn sample_repr no_other_literal accept_source
              (reply error_body (Some 503)) sample_clash
              weth usdc 1000000 8453 weth None None fresh
              (replied error_body (Some 503)
                 (the_request (FIBROUS_API_BASE ++ "/calldata")
                    (Some (calldata_params weth usdc 1000000 weth))))
              FIBROUS_API_BASE (calldata_params weth usdc 1000000 weth)
              tagged_error "Insufficient Liquidity for pair"
              eq_refl eq_refl eq_refl eq_refl eq_refl eq_refl eq_refl)
    as (d & Hrun & _ & _ & _ & _ & _ & Hwallet).
  exists d. split; [exact Hrun | exact Hwallet].
Defined.

Lemma lookups_never_raise_request_failures_witness :
  fst (sample_price_with timeout_shared times_out weth usdc 1000000 8453 None
         None fresh) = inl (ProviderError timeout_error) /\
  is_request_failure (ProviderError timeout_error) = false.
Proof.
  assert (Hrun : fst (sample_price_with timeout_shared times_out weth usdc
                        1000000 8453 None None fresh)
                 = inl (ProviderError timeout_error))
    by (vm_compute; reflexivity).
  split; [exact Hrun |].
  exact (proj1 (lookups_never_raise_request_failures sample_provider
                  sample_native timeout_shared sample_str_exn sample_repr
                  no_other_literal accept_source times_out sample_clash
                  weth usdc 1000000
                  8453 None None None fresh (ProviderError timeout_error))
           Hrun).
Defined.

Lemma lookups_log_the_raised_error_witness :
  exists dbg,
    (dbg = [] \/ exists r, dbg = [LogDebug "GET" r]) /\
    (logs (snd (sample_price (reply error_body (Some 503)) weth usdc 1000000
                  8453 None None fresh)) = dbg \/
     exists d,
       fst (sample_price (reply error_body (Some 503)) weth usdc 1000000 8453
              None None fresh) = inl (ProviderError d) /\
       (logs (snd (sample_price (reply error_body (Some 503)) weth usdc
                     1000000 8453 None None fresh)) = (dbg ++ [LogError d])%list \/
        logs (snd (sample_price (reply error_body (Some 503)) weth usdc
                     1000000 8453 None None fresh))
          = (dbg ++ [LogWarning d])%list)).
Proof.
  exact (proj1 (lookups_log_the_raised_error sample_provider sample_native
                  no_shared_match sample_str_exn sample_repr no_other_literal
                  accept_source (reply error_body (Some 503)) sample_clash
                  weth usdc 1000000 8453 None None None fresh)).
Defined.

(** The lookup of the previous example logs the debug line, then the
    warning. *)
Example failed_lookup_log :
  exists d,
    logs (snd (sample_price (reply error_body (Some 503)) weth usdc 1000000
                 8453 None None fresh)) =
    [LogDebug "GET" {| resp_body := error_body;
                       resp_raise_for_status := Some 503 |};
     LogWarning d] /\
    err_kind d = InsufficientLiquidityError.
Proof. eexists. split; [vm_compute; reflexivity | reflexivity]. Qed.
